(** * BQE Core proxy: token lifecycle and aggregation endpoints

    A shallow embedding of [main.py].  The program is a small FastAPI
    service in front of the BQE Core REST API: it keeps an OAuth2 token in a
    local JSON file, refreshes it through the identity endpoint, and exposes
    four read endpoints that reshape upstream pages.

    Modelling choices, all read off the source:
    - JSON values are an inductive type; a Python [dict] is an association
      list in insertion order (the parsed object: one binding per key);
    - Python floats are the kernel's binary64 floats;
    - the token file, and the log of every effect (clock reads, requests,
      file writes), form an explicit [world] threaded through a state and
      exception monad; a raised exception keeps the effects done before it;
    - the clock and the upstream servers are oracles of the log so far;
    - the Python built-ins that work on text ([datetime.fromisoformat],
      [isoformat], [float] of a string, [round], [str.strip], [str.lower],
      [len] and iteration of a string) are the fields of a class: every
      result holds for all of them;
    - every request gets an answer and every write of the token file
      succeeds (connection errors and I/O errors are left out);
    - the two [while True] loops take fuel: [OutOfFuel] stands for a loop
      that has not ended yet. *)

From Stdlib Require Import ZArith List String Ascii Bool Lia.
From Stdlib Require Import PrimFloat SpecFloat FloatOps.
Import ListNotations.

Set Warnings "-register-all".

Local Open Scope string_scope.
Local Open Scope list_scope.
Local Open Scope Z_scope.

(** ** JSON values and Python's view of them *)

Inductive json : Type :=
| JNull
| JBool (b : bool)
| JInt (n : Z)
| JFloat (f : float)
| JStr (s : string)
| JList (l : list json)
| JDict (d : list (string * json)).

(** Python exceptions the program can raise or let through. *)
Inductive exn : Type :=
| RuntimeError (msg : string)
| HTTPException (status_code : Z) (detail : string)
| TypeError
| KeyError (key : string)
| AttributeError
| ValueError
| OverflowError
| JSONDecodeError.

(** A pure computation that may raise. *)
Inductive outcome (A : Type) : Type :=
| Return (a : A)
| Raise (e : exn)
| OutOfFuel.

Arguments Return {A} a.
Arguments Raise {A} e.
Arguments OutOfFuel {A}.

Definition obind {A B} (o : outcome A) (k : A -> outcome B) : outcome B :=
  match o with
  | Return a => k a
  | Raise e => Raise e
  | OutOfFuel => OutOfFuel
  end.

(** [bool(x)]. *)
Definition truthy (j : json) : bool :=
  match j with
  | JNull => false
  | JBool b => b
  | JInt n => negb (n =? 0)
  | JFloat f => negb (PrimFloat.eqb f 0%float)
  | JStr s => negb (String.eqb s "")
  | JList l => match l with [] => false | _ => true end
  | JDict d => match d with [] => false | _ => true end
  end.

(** [x or y]. *)
Definition py_or (x y : json) : json := if truthy x then x else y.

Fixpoint assoc {V : Type} (k : string) (d : list (string * V)) : option V :=
  match d with
  | [] => None
  | (k', v) :: rest => if String.eqb k k' then Some v else assoc k rest
  end.

(** [d.get(k)] and [d.get(k, default)] on a dict. *)
Definition dget (k : string) (d : list (string * json)) : json :=
  match assoc k d with Some v => v | None => JNull end.

Definition dget_default (k : string) (default : json) (d : list (string * json)) : json :=
  match assoc k d with Some v => v | None => default end.

(** [d[k]] on a dict. *)
Definition dindex (k : string) (d : list (string * json)) : outcome json :=
  match assoc k d with Some v => Return v | None => Raise (KeyError k) end.

(** [x[k]] for a string key on any value: only a dict can be indexed so. *)
Definition subscript (k : string) (x : json) : outcome json :=
  match x with
  | JDict d => dindex k d
  | _ => Raise TypeError
  end.

(** [needle in hay] on strings. *)
Fixpoint contains (needle hay : string) : bool :=
  prefix needle hay ||
  match hay with
  | EmptyString => false
  | String _ rest => contains needle rest
  end.

Definition is_str (s : string) (j : json) : bool :=
  match j with JStr s' => String.eqb s s' | _ => false end.

(** [k in x] for a string [k]. *)
Definition py_in (k : string) (x : json) : outcome bool :=
  match x with
  | JDict d => Return (match assoc k d with Some _ => true | None => false end)
  | JList l => Return (existsb (is_str k) l)
  | JStr s => Return (contains k s)
  | _ => Raise TypeError
  end.

(** ** Numbers: [float(x)], [==] and hashing *)

Definition float_of_Z (n : Z) : outcome float :=
  let f := SF2Prim (binary_normalize prec emax n 0 false) in
  if PrimFloat.eqb (PrimFloat.abs f) infinity then Raise OverflowError else Return f.

(** The integer a float is equal to, when there is one. *)
Definition integral (sf : spec_float) : option Z :=
  match sf with
  | S754_zero _ => Some 0
  | S754_finite s m e =>
      let sign := if s then (-1) else 1 in
      if 0 <=? e then Some (sign * (Z.pos m * 2 ^ e))
      else if (Z.pos m mod 2 ^ (- e)) =? 0 then Some (sign * (Z.pos m / 2 ^ (- e)))
      else None
  | _ => None
  end.

(** What a hashable value is as a dict key: [True == 1 == 1.0] are one key.
    [json] hands out one and the same float object for every [NaN] it
    parses, and a dict finds a key by identity before it tries [==]: all
    NaN ids are one key. *)
Inductive pykey : Type :=
| KNone
| KNum (n : Z)
| KFrac (negative : bool) (m : positive) (e : Z)
| KInf (negative : bool)
| KNaN
| KStr (s : string).

Definition key_of_float (f : float) : pykey :=
  let sf := Prim2SF f in
  match integral sf with
  | Some n => KNum n
  | None =>
      match sf with
      | S754_finite s m e => KFrac s m e
      | S754_infinity s => KInf s
      | _ => KNaN
      end
  end.

(** [hash(x)]: lists and dicts are unhashable. *)
Definition hash_key (j : json) : outcome pykey :=
  match j with
  | JNull => Return KNone
  | JBool b => Return (KNum (if b then 1 else 0))
  | JInt n => Return (KNum n)
  | JFloat f => Return (key_of_float f)
  | JStr s => Return (KStr s)
  | JList _ | JDict _ => Raise TypeError
  end.

Definition key_eqb (a b : pykey) : bool :=
  match a, b with
  | KNone, KNone => true
  | KNum x, KNum y => x =? y
  | KFrac s m e, KFrac s' m' e' => Bool.eqb s s' && (m =? m')%positive && (e =? e')
  | KInf s, KInf s' => Bool.eqb s s'
  | KNaN, KNaN => true
  | KStr x, KStr y => String.eqb x y
  | _, _ => false
  end.

(** [x == n] for an integer [n]. *)
Definition eq_int (x : json) (n : Z) : bool :=
  match hash_key x with
  | Return k => key_eqb k (KNum n)
  | _ => false
  end.

(** ** Time *)

(** A [datetime]: microseconds since the epoch, read in UTC when the value
    carries an offset.  Python refuses to order a naive value against an
    aware one. *)
Inductive datetime : Type :=
| Naive (us : Z)
| Aware (utc_us : Z).

(** [datetime.min] and [datetime.max] (years 1 to 9999), in microseconds. *)
Definition DT_MIN : Z := -62135596800000000.
Definition DT_MAX : Z := 253402300799999999.

(** The Python built-ins on text that the program calls. *)
Class Builtins : Type := {
  fromisoformat : string -> option datetime;
  isoformat : Z -> string;
  timedelta_of_float : float -> outcome Z;
  float_of_str : string -> option float;
  round2 : float -> float;
  str_strip : string -> string;
  str_lower : string -> string;
  (** [len(s)] and [list(s)]: the code points of a [str] *)
  str_len : string -> nat;
  str_chars : string -> list string
}.

(** [len(x)]. *)
Definition py_len {py : Builtins} (x : json) : outcome Z :=
  match x with
  | JList l => Return (Z.of_nat (List.length l))
  | JDict d => Return (Z.of_nat (List.length d))
  | JStr s => Return (Z.of_nat (str_len s))
  | _ => Raise TypeError
  end.

(** The elements [for p in x] and [list.extend(x)] go through. *)
Definition py_iter {py : Builtins} (x : json) : outcome (list json) :=
  match x with
  | JList l => Return l
  | JDict d => Return (map (fun kv => JStr (fst kv)) d)
  | JStr s => Return (map JStr (str_chars s))
  | _ => Raise TypeError
  end.

Inductive number : Type :=
| NInt (n : Z)
| NFloat (f : float).

(** [x - 60]. *)
Definition minus_60 (x : json) : outcome number :=
  match x with
  | JInt n => Return (NInt (n - 60))
  | JBool b => Return (NInt ((if b then 1 else 0) - 60))
  | JFloat f => Return (NFloat (PrimFloat.sub f 60%float))
  | _ => Raise TypeError
  end.

(** [timedelta(seconds=x)], in microseconds: at most 999999999 days. *)
Definition timedelta_seconds {py : Builtins} (x : number) : outcome Z :=
  match x with
  | NInt n =>
      if (-999999999 <=? n / 86400) && (n / 86400 <=? 999999999)
      then Return (n * 1000000)
      else Raise OverflowError
  | NFloat f => timedelta_of_float f
  end.

(** [now + delta] on an aware datetime. *)
Definition datetime_add (now delta : Z) : outcome Z :=
  if (DT_MIN <=? now + delta) && (now + delta <=? DT_MAX)
  then Return (now + delta)
  else Raise OverflowError.

(** ** The world: configuration, token file, clock and upstream *)

Inductive credentials : Type :=
| Bearer (token : json).

Record headers : Type := {
  Authorization : credentials;
  Accept : string
}.

Record response : Type := {
  status_code : Z;
  text : string;
  (** what [r.json()] parses the body to, [None] when it does not parse *)
  body : option json
}.

Inductive event : Type :=
| EvNow
| EvSave (data : json)
| EvPost (url : string) (data : list (string * json))
| EvGet (url : string) (hdrs : headers) (params : option (list (string * json))).

(** Process configuration and the two oracles: the clock, and the servers'
    answers, both as functions of everything that happened so far. *)
Record environment : Type := {
  BQE_CLIENT_ID : option string;
  BQE_CLIENT_SECRET : option string;
  BQE_REFRESH_TOKEN_ENV : option string;
  clock : list event -> Z;
  requests_post : list event -> string -> list (string * json) -> response;
  requests_get :
    list event -> string -> headers -> option (list (string * json)) -> response
}.

(** [os.getenv]: a string or [None]. *)
Definition getenv (v : option string) : json :=
  match v with Some s => JStr s | None => JNull end.

Definition BQE_API_BASE : string := "https://api.bqecore.com/api".
Definition BQE_TOKEN_URL : string := "https://api-identity.bqecore.com/idp/connect/token".

Definition STATUS_MAP : list (string * Z) :=
  [("active", 0); ("complete", 2); ("hold", 3); ("inactive", 4)].

(** The token file: missing, present but not JSON, or holding a value. *)
Inductive file_state : Type :=
| NoFile
| Garbled
| Stored (data : json).

Record world : Type := {
  token_file : file_state;
  trace : list event
}.

Definition log (e : event) (w : world) : world :=
  {| token_file := token_file w; trace := trace w ++ [e] |}.

(** State and exceptions: what was done before a raise stays done. *)
Definition M (A : Type) : Type := world -> outcome A * world.

Definition ret {A} (a : A) : M A := fun w => (Return a, w).
Definition raise {A} (e : exn) : M A := fun w => (Raise e, w).
Definition lift {A} (o : outcome A) : M A := fun w => (o, w).

Definition bind {A B} (c : M A) (k : A -> M B) : M B :=
  fun w =>
    match c w with
    | (Return a, w') => k a w'
    | (Raise e, w') => (Raise e, w')
    | (OutOfFuel, w') => (OutOfFuel, w')
    end.

Notation "x <- c ;; k" := (bind c (fun x => k))
  (at level 61, c at next level, right associativity).
Notation "c ;;; k" := (bind c (fun _ => k))
  (at level 61, right associativity).

(** ** Python dicts keyed by hashable values, in insertion order *)

Fixpoint dict_get {V : Type} (k : pykey) (d : list (pykey * V)) : option V :=
  match d with
  | [] => None
  | (k', v) :: rest => if key_eqb k' k then Some v else dict_get k rest
  end.

(** [d[k] = v]: an equal key keeps its place and takes the new value. *)
Fixpoint dict_set {V : Type} (k : pykey) (v : V) (d : list (pykey * V)) : list (pykey * V) :=
  match d with
  | [] => [(k, v)]
  | (k', v') :: rest =>
      if key_eqb k' k then (k', v) :: rest else (k', v') :: dict_set k v rest
  end.

(** In-place update of the value under [k]. *)
Fixpoint dict_update {V : Type} (k : pykey) (f : V -> V) (d : list (pykey * V))
  : list (pykey * V) :=
  match d with
  | [] => []
  | (k', v) :: rest =>
      if key_eqb k' k then (k', f v) :: rest else (k', v) :: dict_update k f rest
  end.

(** ** What the endpoints answer *)

Record clients_response : Type := {
  cl_page : Z;
  cl_count : Z;
  cl_total : json;
  cl_clients : json
}.

Record projects_response : Type := {
  pr_page : Z;
  pr_filter : string;
  pr_count : Z;
  pr_total_in_bqe : json;
  pr_projects : json
}.

Record client_info : Type := {
  ci_id : json;
  ci_company : json;
  ci_name : json
}.

Record resource : Type := {
  r_name : json;
  r_role : string
}.

Record resources_response : Type := {
  rr_client : client_info;
  total_unique_resources : Z;
  rr_resources : list resource
}.

Record entry_detail : Type := {
  ed_date : json;
  ed_project : json;
  ed_activity : json;
  ed_hours : float;
  ed_description : json;
  ed_billable : json
}.

(** A value of the [resource_hours] dict. *)
Record resource_group : Type := {
  g_name : json;
  g_total_hours : float;
  g_entries : list entry_detail
}.

Record resource_hours_row : Type := {
  resource_name : json;
  total_hours : float;
  entry_count : Z;
  row_entries : list entry_detail
}.

Record timeentries_response : Type := {
  te_client : client_info;
  total_time_entries : Z;
  resources_with_hours : list resource_hours_row
}.

Section Program.

Context {py : Builtins}.
Variable E : environment.

(** ** Token system *)

Definition now_utc : M Z :=
  fun w => (Return (clock E (trace w)), log EvNow w).

Definition load_token_file : M json :=
  fun w =>
    (Return (match token_file w with Stored data => data | _ => JNull end), w).

Definition save_token_file (data : json) : M unit :=
  fun w => (Return tt, {| token_file := Stored data; trace := trace w ++ [EvSave data] |}).

Definition post (url : string) (data : list (string * json)) : M response :=
  fun w => (Return (requests_post E (trace w) url data), log (EvPost url data) w).

Definition get (url : string) (hdrs : headers) (params : option (list (string * json)))
  : M response :=
  fun w => (Return (requests_get E (trace w) url hdrs params), log (EvGet url hdrs params) w).

(** [r.json()]. *)
Definition response_json (r : response) : outcome json :=
  match body r with Some j => Return j | None => Raise JSONDecodeError end.

(** [x.get(k, default)]: only a dict has [get]. *)
Definition py_get_default (k : string) (default : json) (x : json) : outcome json :=
  match x with
  | JDict d => Return (dget_default k default d)
  | _ => Raise AttributeError
  end.

Definition refresh_payload (refresh_token : json) : list (string * json) :=
  [("grant_type", JStr "refresh_token");
   ("refresh_token", refresh_token);
   ("client_id", getenv (BQE_CLIENT_ID E));
   ("client_secret", getenv (BQE_CLIENT_SECRET E))].

Definition token_record (access refresh : json) (expires_at : Z) : json :=
  JDict [("access_token", access);
         ("refresh_token", refresh);
         ("expires_at", JStr (isoformat expires_at))].

Definition refresh_access_token (refresh_token : json) : M json :=
  r <- post BQE_TOKEN_URL (refresh_payload refresh_token) ;;
  if negb (status_code r =? 200)
  then raise (RuntimeError (String.append "Token refresh failed: " (text r)))
  else
    token_data <- lift (response_json r) ;;
    now <- now_utc ;;
    lifetime <- lift (subscript "expires_in" token_data) ;;
    seconds <- lift (minus_60 lifetime) ;;
    delta <- lift (timedelta_seconds seconds) ;;
    expires_at <- lift (datetime_add now delta) ;;
    access <- lift (subscript "access_token" token_data) ;;
    refresh <- lift (py_get_default "refresh_token" refresh_token token_data) ;;
    save_token_file (token_record access refresh expires_at) ;;;
    ret access.

(** The [try] block of [get_access_token]: [Some token] when it returns,
    [None] when the test fails or anything in it raises ([except: pass]). *)
Definition try_cached (data : json) : M (option json) :=
  match data with
  | JDict d =>
      match assoc "expires_at" d with
      | Some (JStr s) =>
          match fromisoformat s with
          | Some expires_at =>
              now <- now_utc ;;
              match expires_at with
              | Aware t => if now <? t then ret (assoc "access_token" d) else ret None
              | Naive _ => ret None
              end
          | None => ret None
          end
      | _ => ret None
      end
  | _ => ret None
  end.

(** [data["refresh_token"] if data and "refresh_token" in data else
    BQE_REFRESH_TOKEN_ENV]. *)
Definition choose_refresh_token (data : json) : outcome json :=
  if truthy data
  then obind (py_in "refresh_token" data) (fun present =>
         if present then subscript "refresh_token" data
         else Return (getenv (BQE_REFRESH_TOKEN_ENV E)))
  else Return (getenv (BQE_REFRESH_TOKEN_ENV E)).

Definition get_access_token : M json :=
  data <- load_token_file ;;
  cached <- (if truthy data then try_cached data else ret None) ;;
  match cached with
  | Some token => ret token
  | None =>
      refresh_token <- lift (choose_refresh_token data) ;;
      if negb (truthy refresh_token)
      then raise (RuntimeError "No refresh token in .env or token.json")
      else refresh_access_token refresh_token
  end.

Definition get_headers : M headers :=
  token <- get_access_token ;;
  ret {| Authorization := Bearer token; Accept := "application/json" |}.

(** ** Safe GET *)

Definition safe_get (url : string) (params : option (list (string * json))) : M json :=
  hdrs <- get_headers ;;
  r <- get url hdrs params ;;
  r <- (if status_code r =? 401
        then
          refresh_access_token (getenv (BQE_REFRESH_TOKEN_ENV E)) ;;;
          hdrs' <- get_headers ;;
          get url hdrs' params
        else ret r) ;;
  if negb (status_code r =? 200)
  then raise (HTTPException (status_code r) (String.append "BQE Error: " (text r)))
  else ret (match body r with Some j => j | None => JList [] end).

(** ** Endpoints *)

Definition query (page : Z) (page_size : Z) : option (list (string * json)) :=
  Some [("page", JInt page); ("pageSize", JInt page_size)].

Definition client_query (client_id : string) (page : Z) : option (list (string * json)) :=
  Some [("clientId", JStr client_id); ("page", JInt page); ("pageSize", JInt 100)].

(** [data.get("items", []) if isinstance(data, dict) else data]. *)
Definition page_items (data : json) : json :=
  match data with
  | JDict d => dget_default "items" (JList []) d
  | _ => data
  end.

(** [data.get("total", len(items)) if isinstance(data, dict) else len(items)]:
    [len(items)] is computed on both sides. *)
Definition page_total (data items : json) : outcome json :=
  obind (py_len items) (fun n =>
    match data with
    | JDict d => Return (dget_default "total" (JInt n) d)
    | _ => Return (JInt n)
    end).

Definition get_clients (page : Z) : M clients_response :=
  data <- safe_get (String.append BQE_API_BASE "/client") (query page 50) ;;
  let items := page_items data in
  total <- lift (page_total data items) ;;
  count <- lift (py_len items) ;;
  ret {| cl_page := page; cl_count := count; cl_total := total; cl_clients := items |}.

(** [[p for p in items if p.get("status") == target_status]]. *)
Fixpoint filter_status (target_status : Z) (items : list json) : outcome (list json) :=
  match items with
  | [] => Return []
  | p :: rest =>
      match p with
      | JDict d =>
          obind (filter_status target_status rest) (fun kept =>
            Return (if eq_int (dget "status" d) target_status then p :: kept else kept))
      | _ => Raise AttributeError
      end
  end.

(** The status name the request asks for, when it is one of [STATUS_MAP]:
    [status and status.strip().lower() in STATUS_MAP]. *)
Definition requested_status (status : option string) : option (string * Z) :=
  match status with
  | Some s =>
      if String.eqb s "" then None
      else
        let name := str_lower (str_strip s) in
        match assoc name STATUS_MAP with
        | Some target_status => Some (name, target_status)
        | None => None
        end
  | None => None
  end.

Definition get_projects (page : Z) (status : option string) : M projects_response :=
  data <- safe_get (String.append BQE_API_BASE "/project") (query page 100) ;;
  let items := page_items data in
  filtered <- lift
    (match requested_status status with
     | Some (name, target_status) =>
         obind (py_iter items) (fun ps =>
         obind (filter_status target_status ps) (fun kept =>
         Return (JList kept, name)))
     | None => Return (items, "all")
     end) ;;
  let '(items, applied_filter) := filtered in
  total_before <- lift (page_total data items) ;;
  count <- lift (py_len items) ;;
  ret {| pr_page := page; pr_filter := applied_filter; pr_count := count;
         pr_total_in_bqe := total_before; pr_projects := items |}.

(** The page loop of [get_client_resources] and [get_client_timeentries]
    (the same statements over [/project] and [/timeentry]).
    [data.get("items", []) if isinstance(data, dict) else
     (data if isinstance(data, list) else [])]. *)
Definition loop_items (data : json) : json :=
  match data with
  | JDict d => dget_default "items" (JList []) d
  | JList _ => data
  | _ => JList []
  end.

Fixpoint fetch_all (fuel : nat) (url client_id : string) (page : Z) (acc : list json)
  : M (list json) :=
  match fuel with
  | O => fun w => (OutOfFuel, w)
  | S fuel' =>
      hdrs <- get_headers ;;
      resp <- get url hdrs (client_query client_id page) ;;
      if negb (status_code resp =? 200) then ret acc
      else
        data <- lift (response_json resp) ;;
        let items := loop_items data in
        if negb (truthy items) then ret acc
        else
          elems <- lift (py_iter items) ;;
          n <- lift (py_len items) ;;
          if n <? 100 then ret (acc ++ elems)
          else fetch_all fuel' url client_id (page + 1) (acc ++ elems)
  end.

(** The client record fetched first by both per-client endpoints. *)
Definition fetch_client (client_id : string) : M json :=
  hdrs <- get_headers ;;
  client_resp <- get (String.append BQE_API_BASE (String.append "/client/" client_id)) hdrs None ;;
  if negb (status_code client_resp =? 200)
  then raise (HTTPException 404 "Client not found")
  else lift (response_json client_resp).

Definition client_summary (client_data : json) : outcome client_info :=
  match client_data with
  | JDict d =>
      Return {| ci_id := dget "id" d; ci_company := dget "company" d;
                ci_name := dget_default "name" (JStr "N/A") d |}
  | _ => Raise AttributeError
  end.

(** [if p.get(idf) and p.get(namef): resources[p[idf]] = {...}]. *)
Definition assign_role (idf namef role : string) (p : list (string * json))
    (resources : list (pykey * resource)) : outcome (list (pykey * resource)) :=
  if truthy (dget idf p) && truthy (dget namef p)
  then obind (hash_key (dget idf p)) (fun k =>
         Return (dict_set k {| r_name := dget namef p; r_role := role |} resources))
  else Return resources.

Fixpoint collect_resources (projects : list json) (resources : list (pykey * resource))
  : outcome (list (pykey * resource)) :=
  match projects with
  | [] => Return resources
  | p :: rest =>
      match p with
      | JDict d =>
          obind (assign_role "managerId" "manager" "Project Manager" d resources) (fun r1 =>
          obind (assign_role "principalId" "principal" "Principal" d r1) (fun r2 =>
          collect_resources rest r2))
      | _ => Raise AttributeError
      end
  end.

Definition get_client_resources (fuel : nat) (client_id : string) : M resources_response :=
  client_data <- fetch_client client_id ;;
  projects <- fetch_all fuel (String.append BQE_API_BASE "/project") client_id 1 [] ;;
  resources <- lift (collect_resources projects []) ;;
  client <- lift (client_summary client_data) ;;
  ret {| rr_client := client;
         total_unique_resources := Z.of_nat (List.length resources);
         rr_resources := map snd resources |}.

(** [float(x)]. *)
Definition py_float (x : json) : outcome float :=
  match x with
  | JInt n => float_of_Z n
  | JBool b => Return (if b then 1%float else 0%float)
  | JFloat f => Return f
  | JStr s => match float_of_str s with Some f => Return f | None => Raise ValueError end
  | _ => Raise TypeError
  end.

(** [hours = float(e.get("actualHours") or 0)]. *)
Definition entry_hours (e : list (string * json)) : outcome float :=
  py_float (py_or (dget "actualHours" e) (JInt 0)).

Definition entry_detail_of (e : list (string * json)) (hours : float) : entry_detail :=
  {| ed_date := dget "date" e; ed_project := dget "project" e;
     ed_activity := dget "activity" e; ed_hours := hours;
     ed_description := dget "description" e; ed_billable := dget "billable" e |}.

(** The body of the grouping loop once the key is hashed: a key that is not
    in the dict yet gets a fresh group, and the group of the key then takes
    the hours and the detail. *)
Definition record_entry (k : pykey) (res_name : json) (hours : float) (detail : entry_detail)
    (resource_hours : list (pykey * resource_group)) : list (pykey * resource_group) :=
  match dict_get k resource_hours with
  | None =>
      resource_hours ++
      [(k, {| g_name := res_name; g_total_hours := PrimFloat.add 0%float hours;
              g_entries := [detail] |})]
  | Some _ =>
      dict_update k (fun g =>
        {| g_name := g_name g; g_total_hours := PrimFloat.add (g_total_hours g) hours;
           g_entries := g_entries g ++ [detail] |}) resource_hours
  end.

Fixpoint group_entries (entries : list json) (resource_hours : list (pykey * resource_group))
  : outcome (list (pykey * resource_group)) :=
  match entries with
  | [] => Return resource_hours
  | e :: rest =>
      match e with
      | JDict d =>
          let res_id := dget "resourceId" d in
          let res_name := py_or (dget "resource" d) (JStr "Unknown") in
          obind (entry_hours d) (fun hours =>
          obind (hash_key res_id) (fun k =>
          group_entries rest
            (record_entry k res_name hours (entry_detail_of d hours) resource_hours)))
      | _ => Raise AttributeError
      end
  end.

Definition resource_row (g : resource_group) : resource_hours_row :=
  {| resource_name := g_name g;
     total_hours := round2 (g_total_hours g);
     entry_count := Z.of_nat (List.length (g_entries g));
     row_entries := g_entries g |}.

Definition get_client_timeentries (fuel : nat) (client_id : string) : M timeentries_response :=
  client_data <- fetch_client client_id ;;
  entries <- fetch_all fuel (String.append BQE_API_BASE "/timeentry") client_id 1 [] ;;
  resource_hours <- lift (group_entries entries []) ;;
  client <- lift (client_summary client_data) ;;
  ret {| te_client := client;
         total_time_entries := Z.of_nat (List.length entries);
         resources_with_hours := map (fun kv => resource_row (snd kv)) resource_hours |}.

End Program.

(** ** Vocabulary of the statements *)

(** The cached token outlives every reading of the clock: each call of
    [get_headers] then only reads the file and the clock. *)
Definition token_fresh {py : Builtins} (E : environment) (w : world) (token : json) : Prop :=
  exists d s t,
    token_file w = Stored (JDict d) /\
    assoc "expires_at" d = Some (JStr s) /\
    fromisoformat s = Some (Aware t) /\
    assoc "access_token" d = Some token /\
    forall tr, clock E tr < t.

Definition bearer (token : json) : headers :=
  {| Authorization := Bearer token; Accept := "application/json" |}.

(** A page answered with status 200 whose items are [l], in either shape:
    a bare list, or an object with the list under ["items"]. *)
Definition page_of (r : response) (l : list json) : Prop :=
  status_code r = 200 /\
  (body r = Some (JList l) \/
   exists d, body r = Some (JDict d) /\ assoc "items" d = Some (JList l)).

(** The page that ends the loop: a failed request, or fewer than 100 items. *)
Definition closing_page (r : response) (l : list json) : Prop :=
  (status_code r <> 200 /\ l = []) \/
  (page_of r l /\ (List.length l < 100)%nat).

(** What one turn of the page loop logs when the cached token is fresh. *)
Definition page_round (url client_id : string) (token : json) (page : nat) : list event :=
  [EvNow; EvGet url (bearer token) (client_query client_id (Z.of_nat page))].

Definition client_url (client_id : string) : string :=
  String.append BQE_API_BASE (String.append "/client/" client_id).
Definition project_url : string := String.append BQE_API_BASE "/project".
Definition timeentry_url : string := String.append BQE_API_BASE "/timeentry".

(** A JSON object. *)
Definition is_object (j : json) : Prop := exists d, j = JDict d.

Definition project_status (p : json) : json :=
  match p with JDict d => dget "status" d | _ => JNull end.

(** The project's status equals the code (Python's [==]). *)
Definition has_status (code : Z) (p : json) : bool := eq_int (project_status p) code.

(** [/projects] answering with the rows [shown] under the filter [applied]. *)
Definition projects_page (page : Z) (applied : string) (data : json) (shown : list json)
  : projects_response :=
  {| pr_page := page;
     pr_filter := applied;
     pr_count := Z.of_nat (List.length shown);
     pr_total_in_bqe :=
       match data with
       | JDict d => dget_default "total" (JInt (Z.of_nat (List.length shown))) d
       | _ => JInt (Z.of_nat (List.length shown))
       end;
     pr_projects := JList shown |}.

(** No two keys of the dict are equal. *)
Definition distinct_keys {V : Type} (d : list (pykey * V)) : Prop :=
  ForallOrdPairs (fun a b => key_eqb (fst a) (fst b) = false) d.

(** The person id [id] is the key [k]. *)
Definition names_key (id : json) (k : pykey) : bool :=
  match hash_key id with
  | Return k' => key_eqb k' k
  | _ => false
  end.

(** The role assignments a project makes, manager first: a role counts when
    both its id and its name are set. *)
Definition assignments (p : json) : list (json * resource) :=
  match p with
  | JDict d =>
      (if truthy (dget "managerId" d) && truthy (dget "manager" d)
       then [(dget "managerId" d, {| r_name := dget "manager" d; r_role := "Project Manager" |})]
       else []) ++
      (if truthy (dget "principalId" d) && truthy (dget "principal" d)
       then [(dget "principalId" d, {| r_name := dget "principal" d; r_role := "Principal" |})]
       else [])
  | _ => []
  end.

(** The last assignment made to the person [k] in a list of assignments. *)
Fixpoint last_assigned (k : pykey) (l : list (json * resource)) : option resource :=
  match l with
  | [] => None
  | (id, r) :: rest =>
      match last_assigned k rest with
      | Some later => Some later
      | None => if names_key id k then Some r else None
      end
  end.

(** Left-to-right floating-point sum from [0.0]. *)
Definition fsum (l : list float) : float := fold_left PrimFloat.add l 0%float.

(** A group's total is the sum of the hours of its entries. *)
Definition group_consistent (g : resource_group) : Prop :=
  g_total_hours g = fsum (map ed_hours (g_entries g)).

(** The details filed under the key [k], none when the key is absent. *)
Definition entries_at (k : pykey) (groups : list (pykey * resource_group)) : list entry_detail :=
  match dict_get k groups with Some g => g_entries g | None => [] end.

(** The details of the entries whose [resourceId] is the key [k], in order. *)
Fixpoint details_for {py : Builtins} (k : pykey) (entries : list json) : list entry_detail :=
  match entries with
  | [] => []
  | e :: rest =>
      match e with
      | JDict d =>
          match entry_hours d with
          | Return hours =>
              if names_key (dget "resourceId" d) k
              then entry_detail_of d hours :: details_for k rest
              else details_for k rest
          | _ => details_for k rest
          end
      | _ => details_for k rest
      end
  end.

(** ** A concrete Python and concrete worlds to run the model on *)

Definition is_space (c : ascii) : bool :=
  let n := nat_of_ascii c in
  ((9 <=? n) && (n <=? 13))%nat || ((28 <=? n) && (n <=? 32))%nat.

Fixpoint lstrip (s : string) : string :=
  match s with
  | String c rest => if is_space c then lstrip rest else s
  | EmptyString => EmptyString
  end.

Fixpoint rstrip (s : string) : string :=
  match s with
  | String c rest =>
      match rstrip rest with
      | EmptyString => if is_space c then EmptyString else String c EmptyString
      | kept => String c kept
      end
  | EmptyString => EmptyString
  end.

Definition lower_char (c : ascii) : ascii :=
  let n := nat_of_ascii c in
  if ((65 <=? n) && (n <=? 90))%nat then ascii_of_nat (n + 32) else c.

Fixpoint lower (s : string) : string :=
  match s with
  | String c rest => String (lower_char c) (lower rest)
  | EmptyString => EmptyString
  end.

Fixpoint ascii_chars (s : string) : list string :=
  match s with
  | EmptyString => []
  | String c rest => String c EmptyString :: ascii_chars rest
  end.

(** Python's answers on the inputs the examples use; [strip], [lower],
    [len] and the characters of a string are the ASCII ones. *)
Definition python_sample : Builtins := {|
  fromisoformat := fun s =>
    if String.eqb s "2030-01-01T00:59:00+00:00" then Some (Aware 1893459540000000)
    else if String.eqb s "2000-01-01T00:00:00+00:00" then Some (Aware 946684800000000)
    else if String.eqb s "2030-01-01T00:59:00" then Some (Naive 1893459540000000)
    else None;
  isoformat := fun t =>
    if t =? 1893459540000000 then "2030-01-01T00:59:00+00:00"
    else if t =? 946684800000000 then "2000-01-01T00:00:00+00:00"
    else "1970-01-01T00:00:00+00:00";
  timedelta_of_float := fun _ => Raise OverflowError;
  float_of_str := fun s => if String.eqb s "2.5" then Some 2.5%float else None;
  round2 := fun f => f;
  str_strip := fun s => rstrip (lstrip s);
  str_lower := lower;
  str_len := String.length;
  str_chars := ascii_chars
|}.

(** 2030-01-01T00:00:00Z. *)
Definition NOON : Z := 1893456000000000.

Definition answer (code : Z) (txt : string) (j : option json) : response :=
  {| status_code := code; text := txt; body := j |}.

(** The identity server grants a one-hour token and does not rotate the
    refresh token. *)
Definition grant : response :=
  answer 200 "" (Some (JDict [("access_token", JStr "fresh"); ("expires_in", JInt 3600)])).

Definition sample_env
    (api : string -> option (list (string * json)) -> response) : environment :=
  {| BQE_CLIENT_ID := Some "id";
     BQE_CLIENT_SECRET := Some "secret";
     BQE_REFRESH_TOKEN_ENV := Some "seed";
     clock := fun _ => NOON;
     requests_post := fun _ _ _ => grant;
     requests_get := fun _ url _ params => api url params |}.

Definition stored (access refresh : json) (expires_at : string) : world :=
  {| token_file :=
       Stored (JDict [("access_token", access); ("refresh_token", refresh);
                      ("expires_at", JStr expires_at)]);
     trace := [] |}.

(** A token valid until 00:59, and one that expired in 2000. *)
Definition valid_world : world :=
  stored (JStr "cached") (JStr "kept") "2030-01-01T00:59:00+00:00".
Definition expired_world (refresh : json) : world :=
  stored (JStr "old") refresh "2000-01-01T00:00:00+00:00".

Definition unauthorized : string -> option (list (string * json)) -> response :=
  fun _ _ => answer 401 "token rejected" None.

(** The client exists; every other answer is a 200 whose body is not JSON. *)
Definition malformed_pages : string -> option (list (string * json)) -> response :=
  fun url _ =>
    if String.eqb url (client_url "42")
    then answer 200 "" (Some (JDict [("id", JStr "42"); ("company", JStr "Acme")]))
    else answer 200 "<html>maintenance</html>" None.

(** Every request fails with a 500. *)
Definition broken : string -> option (list (string * json)) -> response :=
  fun _ _ => answer 500 "upstream down" None.

(** Page 1 is an object with 100 items, page 2 a bare list of three. *)
Definition two_pages : string -> option (list (string * json)) -> response :=
  fun _ params =>
    match params with
    | Some ps =>
        match assoc "page" ps with
        | Some (JInt 1) => answer 200 "" (Some (JDict [("items", JList (repeat (JInt 7) 100))]))
        | _ => answer 200 "" (Some (JList [JInt 1; JInt 2; JInt 3]))
        end
    | None => answer 200 "" (Some (JDict []))
    end.

(** One client, three projects on a single page, and two time entries. *)
Definition small_projects : list json :=
  [JDict [("status", JInt 0); ("managerId", JStr "A"); ("manager", JStr "Ann");
          ("principalId", JStr "B"); ("principal", JStr "Bob")];
   JDict [("status", JInt 2); ("principalId", JStr "A"); ("principal", JStr "Ann")];
   JDict [("status", JInt 0)]].

Definition small_entries : list json :=
  [JDict [("resourceId", JStr "r1"); ("resource", JStr "Ann"); ("actualHours", JStr "2.5")];
   JDict [("resourceId", JStr "r1"); ("actualHours", JNull)]].

Definition small_client : string -> option (list (string * json)) -> response :=
  fun url _ =>
    if String.eqb url (client_url "42")
    then answer 200 "" (Some (JDict [("id", JStr "42"); ("company", JStr "Acme")]))
    else if String.eqb url project_url
    then answer 200 "" (Some (JDict [("items", JList small_projects); ("total", JInt 57)]))
    else answer 200 "" (Some (JList small_entries)).

Definition acme : client_info :=
  {| ci_id := JStr "42"; ci_company := JStr "Acme"; ci_name := JStr "N/A" |}.

(** What the two per-client endpoints answer for that client. *)
Definition small_resources : resources_response :=
  {| rr_client := acme;
     total_unique_resources := 2;
     rr_resources :=
       [{| r_name := JStr "Ann"; r_role := "Principal" |};
        {| r_name := JStr "Bob"; r_role := "Principal" |}] |}.

Definition blank_detail (hours : float) : entry_detail :=
  {| ed_date := JNull; ed_project := JNull; ed_activity := JNull; ed_hours := hours;
     ed_description := JNull; ed_billable := JNull |}.

Definition small_timeentries : timeentries_response :=
  {| te_client := acme;
     total_time_entries := 2;
     resources_with_hours :=
       [{| resource_name := JStr "Ann";
           total_hours := 2.5%float;
           entry_count := 2;
           row_entries := [blank_detail 2.5%float; blank_detail 0%float] |}] |}.

(** The world after the client record and one page were fetched. *)
Definition after_one_page (url : string) : world :=
  {| token_file := token_file valid_world;
     trace := [EvNow; EvGet (client_url "42") (bearer (JStr "cached")) None;
               EvNow; EvGet url (bearer (JStr "cached")) (client_query "42" 1)] |}.

(** An identity server whose 200 answer is not JSON, and one that rejects
    the refresh token. *)
Definition garbled_identity : environment :=
  {| BQE_CLIENT_ID := Some "id";
     BQE_CLIENT_SECRET := Some "secret";
     BQE_REFRESH_TOKEN_ENV := Some "seed";
     clock := fun _ => NOON;
     requests_post := fun _ _ _ => answer 200 "<html>login</html>" None;
     requests_get := fun _ url _ params => unauthorized url params |}.

Definition rejecting_identity : environment :=
  {| BQE_CLIENT_ID := Some "id";
     BQE_CLIENT_SECRET := Some "secret";
     BQE_REFRESH_TOKEN_ENV := Some "seed";
     clock := fun _ => NOON;
     requests_post := fun _ _ _ => answer 400 "invalid_grant" None;
     requests_get := fun _ url _ params => unauthorized url params |}.

(** ** Reading the log *)

Definition is_post (e : event) : bool :=
  match e with EvPost _ _ => true | _ => false end.

Definition is_save (e : event) : bool :=
  match e with EvSave _ => true | _ => false end.

(** Number of refresh exchanges and of token-file writes in a log. *)
Definition posts (tr : list event) : nat := List.length (filter is_post tr).
Definition saves (tr : list event) : nat := List.length (filter is_save tr).

(** The resource requests of a log, in order: address and query of each GET. *)
Definition asked (tr : list event) : list (string * option (list (string * json))) :=
  flat_map (fun e => match e with EvGet url _ params => [(url, params)] | _ => [] end) tr.

Definition clients_url : string := String.append BQE_API_BASE "/client".

(** The total the upstream page reports, when it reports one. *)
Definition upstream_total (data : json) : option json :=
  match data with JDict d => assoc "total" d | _ => None end.

(** A project the role extraction can go through: an object whose assigned
    ids can all be dict keys. *)
Definition usable_project (p : json) : Prop :=
  is_object p /\
  forall id r, In (id, r) (assignments p) -> exists k, hash_key id = Return k.

(** Number of entry details filed in the groups. *)
Definition filed (groups : list (pykey * resource_group)) : nat :=
  list_sum (map (fun kv => List.length (g_entries (snd kv))) groups).

(** The sum of the rows' [entry_count]. *)
Definition counted (rows : list resource_hours_row) : Z :=
  fold_right (fun row n => entry_count row + n) 0 rows.

(** The name carried by the first entry whose [resourceId] is the key [k]
    (["Unknown"] when that entry has none). *)
Fixpoint first_name (k : pykey) (entries : list json) : option json :=
  match entries with
  | [] => None
  | e :: rest =>
      match e with
      | JDict d =>
          if names_key (dget "resourceId" d) k
          then Some (py_or (dget "resource" d) (JStr "Unknown"))
          else first_name k rest
      | _ => first_name k rest
      end
  end.

(** A page body that is neither a list nor an object. *)
Definition is_scalar (data : json) : Prop :=
  match data with JList _ | JDict _ => False | _ => True end.

(** What both per-client endpoints show of the client record. *)
Definition client_card (cd : list (string * json)) : client_info :=
  {| ci_id := dget "id" cd; ci_company := dget "company" cd;
     ci_name := match assoc "name" cd with Some name => name | None => JStr "N/A" end |}.

(** An entry the grouping can go through: an object whose hours convert
    and whose [resourceId] can be a dict key. *)
Definition usable_entry {py : Builtins} (e : json) : Prop :=
  exists d,
    e = JDict d /\
    (exists hours, entry_hours d = Return hours) /\
    (exists k, hash_key (dget "resourceId" d) = Return k).

(** ** More sample upstreams *)

(** The sample Python, knowing midnight as well. *)
Definition python_at_midnight : Builtins := {|
  fromisoformat := fun s =>
    if String.eqb s "2030-01-01T00:00:00+00:00" then Some (Aware NOON)
    else fromisoformat (Builtins := python_sample) s;
  isoformat := fun t =>
    if t =? NOON then "2030-01-01T00:00:00+00:00"
    else isoformat (Builtins := python_sample) t;
  timedelta_of_float := timedelta_of_float (Builtins := python_sample);
  float_of_str := float_of_str (Builtins := python_sample);
  round2 := round2 (Builtins := python_sample);
  str_strip := str_strip (Builtins := python_sample);
  str_lower := str_lower (Builtins := python_sample);
  str_len := str_len (Builtins := python_sample);
  str_chars := str_chars (Builtins := python_sample)
|}.

(** An identity server granting sixty-second tokens. *)
Definition short_grant_identity : environment :=
  {| BQE_CLIENT_ID := Some "id";
     BQE_CLIENT_SECRET := Some "secret";
     BQE_REFRESH_TOKEN_ENV := Some "seed";
     clock := fun _ => NOON;
     requests_post := fun _ _ _ =>
       answer 200 "" (Some (JDict [("access_token", JStr "brief"); ("expires_in", JInt 60);
                                   ("refresh_token", JStr "rotated")]));
     requests_get := fun _ url _ params => unauthorized url params |}.

(** A resource server that rejects the cached token and accepts the
    refreshed one. *)
Definition renewing : environment :=
  {| BQE_CLIENT_ID := Some "id";
     BQE_CLIENT_SECRET := Some "secret";
     BQE_REFRESH_TOKEN_ENV := Some "seed";
     clock := fun _ => NOON;
     requests_post := fun _ _ _ => grant;
     requests_get := fun _ _ hdrs _ =>
       match Authorization hdrs with
       | Bearer (JStr "fresh") => answer 200 "" (Some (JList [JInt 1]))
       | _ => answer 401 "token rejected" None
       end |}.

(** The client exists, every other request fails with a 503. *)
Definition client_only : string -> option (list (string * json)) -> response :=
  fun url _ =>
    if String.eqb url (client_url "42")
    then answer 200 "" (Some (JDict [("id", JStr "42"); ("company", JStr "Acme")]))
    else answer 503 "unavailable" None.

(** Every page is the JSON string ["oops"]. *)
Definition text_pages : string -> option (list (string * json)) -> response :=
  fun _ _ => answer 200 "" (Some (JStr "oops")).

(** Six time entries of three resources: hours as text, as numbers, null
    and missing; [7] and [7.0] are the same id, and so are the two NaN. *)
Definition mixed_entries : list json :=
  [JDict [("resourceId", JStr "r1"); ("resource", JStr "Ann"); ("actualHours", JStr "2.5")];
   JDict [("resourceId", JInt 7); ("resource", JStr "Bob"); ("actualHours", JFloat 1.25)];
   JDict [("resourceId", JFloat nan); ("actualHours", JFloat 0.5)];
   JDict [("resourceId", JStr "r1"); ("resource", JStr "Zed"); ("actualHours", JNull)];
   JDict [("resourceId", JFloat 7); ("actualHours", JInt 3)];
   JDict [("resourceId", JFloat nan); ("resource", JStr "Cy")]].

Definition mixed_client : string -> option (list (string * json)) -> response :=
  fun url _ =>
    if String.eqb url (client_url "42")
    then answer 200 "" (Some (JDict [("id", JStr "42"); ("company", JStr "Acme")]))
    else answer 200 "" (Some (JDict [("items", JList mixed_entries)])).

Definition mixed_timeentries : timeentries_response :=
  {| te_client := acme;
     total_time_entries := 6;
     resources_with_hours :=
       [{| resource_name := JStr "Ann";
           total_hours := 2.5%float;
           entry_count := 2;
           row_entries := [blank_detail 2.5%float; blank_detail 0%float] |};
        {| resource_name := JStr "Bob";
           total_hours := 4.25%float;
           entry_count := 2;
           row_entries := [blank_detail 1.25%float; blank_detail 3%float] |};
        {| resource_name := JStr "Unknown";
           total_hours := 0.5%float;
           entry_count := 2;
           row_entries := [blank_detail 0.5%float; blank_detail 0%float] |}] |}.

Definition small_group : resource_group :=
  {| g_name := JStr "Ann";
     g_total_hours := 2.5%float;
     g_entries := [blank_detail 2.5%float; blank_detail 0%float] |}.

Arguments log e w /.

(** Unfolds the monad's plumbing. *)
Ltac step := unfold bind, ret, raise, lift, now_utc, post, get, save_token_file,
  load_token_file; cbn [fst snd].

(** * Results *)

(** ** Token system *)

Section TokenResults.

Context {py : Builtins}.
Variable E : environment.

Lemma assoc_some_truthy (k : string) (d : list (string * json)) (v : json) :
  assoc k d = Some v -> truthy (JDict d) = true.
Proof. destruct d; simpl; [discriminate | reflexivity]. Qed.

(** C1. A stored record whose [expires_at] parses to an instant (a value
    with a UTC offset, the kind Python can order against [now_utc()])
    strictly after the clock's reading makes [get_access_token] return the
    stored [access_token] as it is; the token file is the same afterwards
    and the only effect logged is the clock read: no refresh exchange, no
    save. *)
Theorem get_access_token_cached (w : world) (d : list (string * json))
    (s : string) (t : Z) (token : json) :
  token_file w = Stored (JDict d) ->
  assoc "expires_at" d = Some (JStr s) ->
  fromisoformat s = Some (Aware t) ->
  clock E (trace w) < t ->
  assoc "access_token" d = Some token ->
  get_access_token E w =
    (Return token, {| token_file := token_file w; trace := trace w ++ [EvNow] |}).
Proof.
  intros Hfile Hexp Hparse Hlater Htok.
  unfold get_access_token, bind, load_token_file.
  rewrite Hfile, (assoc_some_truthy _ _ _ Hexp).
  unfold try_cached. rewrite Hexp, Hparse.
  unfold bind, now_utc.
  apply Z.ltb_lt in Hlater. rewrite Hlater.
  unfold ret. rewrite Htok. simpl. rewrite Hfile. reflexivity.
Qed.

Lemma timedelta_in_range (now n : Z) :
  DT_MIN <= now <= DT_MAX ->
  DT_MIN <= now + (n - 60) * 1000000 <= DT_MAX ->
  (-999999999 <=? (n - 60) / 86400) && ((n - 60) / 86400 <=? 999999999) = true.
Proof.
  unfold DT_MIN, DT_MAX. intros Hnow Hsum.
  apply andb_true_intro; split; apply Z.leb_le.
  - apply Z.div_le_lower_bound; lia.
  - apply Z.div_le_upper_bound; lia.
Qed.

Lemma refresh_run (w : world) (refresh_token : json) (td : list (string * json))
    (n : Z) (access : json) :
  let sent := EvPost BQE_TOKEN_URL (refresh_payload E refresh_token) in
  let r := requests_post E (trace w) BQE_TOKEN_URL (refresh_payload E refresh_token) in
  let now := clock E (trace w ++ [sent]) in
  let record :=
    JDict [("access_token", access);
           ("refresh_token",
             match assoc "refresh_token" td with Some new => new | None => refresh_token end);
           ("expires_at", JStr (isoformat (now + (n - 60) * 1000000)))] in
  status_code r = 200 ->
  body r = Some (JDict td) ->
  assoc "expires_in" td = Some (JInt n) ->
  assoc "access_token" td = Some access ->
  DT_MIN <= now <= DT_MAX ->
  DT_MIN <= now + (n - 60) * 1000000 <= DT_MAX ->
  refresh_access_token E refresh_token w =
    (Return access,
     {| token_file := Stored record;
        trace := trace w ++ [sent; EvNow; EvSave record] |}).
Proof.
  intros sent r now record Hst Hbody Hexp Hacc Hnow Hsum.
  unfold refresh_access_token. step.
  fold r. rewrite Hst. cbn [Z.eqb Pos.eqb negb].
  unfold response_json. fold r. rewrite Hbody.
  unfold subscript, dindex. rewrite Hexp.
  unfold minus_60, timedelta_seconds. cbn [log trace token_file].
  rewrite (timedelta_in_range (clock E (trace w ++ [sent])) n Hnow Hsum).
  unfold datetime_add.
  fold sent. fold now.
  destruct Hsum as [Hlo Hhi].
  apply Z.leb_le in Hlo, Hhi. rewrite Hlo, Hhi. cbn [andb].
  rewrite Hacc. unfold py_get_default, token_record, dget_default. fold record.
  rewrite <- !app_assoc. reflexivity.
Qed.

(** C2. When the identity endpoint answers 200 with a token and a lifetime
    of [n] seconds, [refresh_access_token] returns the new access token with
    the record already saved: its [expires_at] is the clock's reading plus
    [n - 60] seconds, its [refresh_token] is the one the answer carries when
    it carries one and the one just used otherwise, and the save is the last
    effect before the return. *)
Theorem refresh_access_token_persists (w : world) (refresh_token : json)
    (td : list (string * json)) (n : Z) (access : json) :
  let sent := EvPost BQE_TOKEN_URL (refresh_payload E refresh_token) in
  let r := requests_post E (trace w) BQE_TOKEN_URL (refresh_payload E refresh_token) in
  let now := clock E (trace w ++ [sent]) in
  let record :=
    JDict [("access_token", access);
           ("refresh_token",
             match assoc "refresh_token" td with Some new => new | None => refresh_token end);
           ("expires_at", JStr (isoformat (now + (n - 60) * 1000000)))] in
  status_code r = 200 ->
  body r = Some (JDict td) ->
  assoc "expires_in" td = Some (JInt n) ->
  assoc "access_token" td = Some access ->
  DT_MIN <= now <= DT_MAX ->
  DT_MIN <= now + (n - 60) * 1000000 <= DT_MAX ->
  refresh_access_token E refresh_token w =
    (Return access,
     {| token_file := Stored record;
        trace := trace w ++ [sent; EvNow; EvSave record] |}).
Proof.
  intros sent r now record Hst Hbody Hexp Hacc Hnow Hsum.
  unfold refresh_access_token. step.
  fold r. rewrite Hst. cbn [Z.eqb Pos.eqb negb].
  unfold response_json. fold r. rewrite Hbody.
  unfold subscript, dindex. rewrite Hexp.
  unfold minus_60, timedelta_seconds. cbn [log trace token_file].
  rewrite (timedelta_in_range (clock E (trace w ++ [sent])) n Hnow Hsum).
  unfold datetime_add. fold sent. fold now.
  destruct Hsum as [Hlo Hhi].
  apply Z.leb_le in Hlo, Hhi. rewrite Hlo, Hhi. cbn [andb].
  rewrite Hacc. unfold py_get_default, token_record, dget_default. fold record.
  rewrite <- !app_assoc. reflexivity.
Qed.

Lemma headers_run (w : world) (d : list (string * json)) (s : string) (t : Z) (token : json) :
  token_file w = Stored (JDict d) ->
  assoc "expires_at" d = Some (JStr s) ->
  fromisoformat s = Some (Aware t) ->
  clock E (trace w) < t ->
  assoc "access_token" d = Some token ->
  get_headers E w =
    (Return (bearer token), {| token_file := token_file w; trace := trace w ++ [EvNow] |}).
Proof.
  intros Hfile Hexp Hparse Hlater Htok.
  destruct w as [file tr]. cbn [token_file trace] in *. subst file.
  unfold get_headers, get_access_token, bind, load_token_file. cbn [token_file].
  rewrite (assoc_some_truthy _ _ _ Hexp).
  unfold try_cached. rewrite Hexp, Hparse.
  unfold bind, now_utc. cbn [trace].
  apply Z.ltb_lt in Hlater. rewrite Hlater.
  unfold ret. rewrite Htok. reflexivity.
Qed.

(** C3 (as amended). In [safe_get], a 401 answer to the first GET is followed
    by one refresh exchange made with the configured initial refresh token,
    whatever the cached expiry says; the headers are then rebuilt from the
    token file (no further exchange while the record just saved is
    unexpired) and the GET is sent once more.  A 401 on that retry is raised
    as an [HTTPException] with status 401, and the retry is the last effect. *)
Theorem safe_get_retries_once (url : string) (params : option (list (string * json)))
    (w w1 : world) (hdrs : headers) (td : list (string * json)) (n : Z) (access : json) :
  let first := EvGet url hdrs params in
  let seed := getenv (BQE_REFRESH_TOKEN_ENV E) in
  let sent := EvPost BQE_TOKEN_URL (refresh_payload E seed) in
  let r := requests_post E (trace w1 ++ [first]) BQE_TOKEN_URL (refresh_payload E seed) in
  let now := clock E (trace w1 ++ [first; sent]) in
  let expiry := now + (n - 60) * 1000000 in
  let record :=
    JDict [("access_token", access);
           ("refresh_token",
             match assoc "refresh_token" td with Some new => new | None => seed end);
           ("expires_at", JStr (isoformat expiry))] in
  let retry := EvGet url (bearer access) params in
  let r2 :=
    requests_get E (trace w1 ++ [first; sent; EvNow; EvSave record; EvNow])
      url (bearer access) params in
  get_headers E w = (Return hdrs, w1) ->
  status_code (requests_get E (trace w1) url hdrs params) = 401 ->
  status_code r = 200 ->
  body r = Some (JDict td) ->
  assoc "expires_in" td = Some (JInt n) ->
  assoc "access_token" td = Some access ->
  DT_MIN <= now <= DT_MAX ->
  DT_MIN <= expiry <= DT_MAX ->
  fromisoformat (isoformat expiry) = Some (Aware expiry) ->
  clock E (trace w1 ++ [first; sent; EvNow; EvSave record]) < expiry ->
  status_code r2 = 401 ->
  safe_get E url params w =
    (Raise (HTTPException 401 (String.append "BQE Error: " (text r2))),
     {| token_file := Stored record;
        trace := trace w1 ++ [first; sent; EvNow; EvSave record; EvNow; retry] |}).
Proof.
  intros first seed sent r now expiry record retry r2
    Hh H401 Hst Hbody Hexp Hacc Hnow Hsum Hround Hvalid H401'.
  unfold safe_get. unfold bind at 1. rewrite Hh.
  unfold bind at 1. unfold get at 1. rewrite H401.
  change (401 =? 401) with true. cbv iota.
  unfold bind at 1. unfold bind at 1. unfold bind at 1.
  cbn [log trace token_file]. fold first. fold seed.
  pose (w2 := {| token_file := token_file w1; trace := trace w1 ++ [first] |}).
  fold w2.
  assert (Hrefresh : refresh_access_token E seed w2 =
            (Return access,
             {| token_file := Stored record;
                trace := trace w1 ++ [first; sent; EvNow; EvSave record] |})).
  { rewrite (refresh_run w2 seed td n access); subst w2; cbn [trace].
    - rewrite <- !app_assoc. reflexivity.
    - exact Hst.
    - exact Hbody.
    - exact Hexp.
    - exact Hacc.
    - rewrite <- app_assoc. exact Hnow.
    - rewrite <- app_assoc. exact Hsum. }
  rewrite Hrefresh.
  match goal with
  | |- context [get_headers E ?w3] =>
      rewrite (headers_run w3 _ (isoformat expiry) expiry access
                 eq_refl eq_refl Hround Hvalid eq_refl)
  end.
  cbn [trace token_file].
  unfold get, log. cbn [trace token_file].
  rewrite <- !app_assoc. cbn [app]. fold r2. fold retry.
  rewrite H401'. reflexivity.
Qed.

End TokenResults.

(** C1, on a run: the token cached until 00:59 is returned at 00:00. *)
Lemma get_access_token_cached_witness :
  get_access_token (py := python_sample) (sample_env unauthorized) valid_world =
    (Return (JStr "cached"), {| token_file := token_file valid_world; trace := [EvNow] |}).
Proof.
  apply (get_access_token_cached (py := python_sample) (sample_env unauthorized) valid_world
           [("access_token", JStr "cached"); ("refresh_token", JStr "kept");
            ("expires_at", JStr "2030-01-01T00:59:00+00:00")]
           "2030-01-01T00:59:00+00:00" 1893459540000000 (JStr "cached"));
    reflexivity.
Defined.

(** C2, on a run: a one-hour grant taken at 00:00 is stored as valid until
    00:59, with the refresh token that was used. *)
Lemma refresh_access_token_persists_witness :
  refresh_access_token (py := python_sample) (sample_env unauthorized) (JStr "seed")
    (expired_world (JStr "seed")) =
    (Return (JStr "fresh"),
     {| token_file := token_file (stored (JStr "fresh") (JStr "seed") "2030-01-01T00:59:00+00:00");
        trace :=
          [EvPost BQE_TOKEN_URL (refresh_payload (sample_env unauthorized) (JStr "seed"));
           EvNow;
           EvSave (JDict [("access_token", JStr "fresh"); ("refresh_token", JStr "seed");
                          ("expires_at", JStr "2030-01-01T00:59:00+00:00")])] |}).
Proof.
  apply (refresh_access_token_persists (py := python_sample) (sample_env unauthorized)
           (expired_world (JStr "seed")) (JStr "seed")
           [("access_token", JStr "fresh"); ("expires_in", JInt 3600)] 3600 (JStr "fresh"));
    try reflexivity; vm_compute; split; discriminate.
Defined.

(** C3 as amended, on a run: the upstream rejects every token; [safe_get]
    asks twice, refreshes once in between with the configured seed, and
    raises 401. *)
Lemma safe_get_retries_once_witness :
  safe_get (py := python_sample) (sample_env unauthorized) project_url (query 1 100) valid_world =
    (Raise (HTTPException 401 "BQE Error: token rejected"),
     {| token_file := token_file (stored (JStr "fresh") (JStr "seed") "2030-01-01T00:59:00+00:00");
        trace :=
          [EvNow;
           EvGet project_url (bearer (JStr "cached")) (query 1 100);
           EvPost BQE_TOKEN_URL (refresh_payload (sample_env unauthorized) (JStr "seed"));
           EvNow;
           EvSave (JDict [("access_token", JStr "fresh"); ("refresh_token", JStr "seed");
                          ("expires_at", JStr "2030-01-01T00:59:00+00:00")]);
           EvNow;
           EvGet project_url (bearer (JStr "fresh")) (query 1 100)] |}).
Proof.
  apply (safe_get_retries_once (py := python_sample) (sample_env unauthorized)
           project_url (query 1 100) valid_world
           {| token_file := token_file valid_world; trace := [EvNow] |}
           (bearer (JStr "cached"))
           [("access_token", JStr "fresh"); ("expires_in", JInt 3600)] 3600 (JStr "fresh"));
    try reflexivity; vm_compute; split; discriminate.
Defined.

(** C3 as stated fails: the client record of [/clients/{id}/resources] is
    fetched with a plain GET.  With every token rejected (401) the endpoint
    answers 404 after that single request: no refresh exchange is made, the
    GET is not retried, and the error does not carry status 401. *)
Lemma client_fetch_401_is_not_retried :
  status_code
    (requests_get (sample_env unauthorized) [EvNow] (client_url "42")
       (bearer (JStr "cached")) None) = 401 /\
  get_client_resources (py := python_sample) (sample_env unauthorized) 10 "42" valid_world =
    (Raise (HTTPException 404 "Client not found"),
     {| token_file := token_file valid_world;
        trace := [EvNow; EvGet (client_url "42") (bearer (JStr "cached")) None] |}).
Proof. split; reflexivity. Qed.

(** An [expires_at] without an offset cannot be compared with [now_utc()]:
    the comparison raises inside the [try] block and the token is refreshed,
    however far in the future the value reads. *)
Lemma naive_expiry_is_refreshed :
  get_access_token (py := python_sample) (sample_env unauthorized)
    (stored (JStr "cached") (JStr "kept") "2030-01-01T00:59:00") =
  refresh_access_token (py := python_sample) (sample_env unauthorized) (JStr "kept")
    {| token_file := token_file (stored (JStr "cached") (JStr "kept") "2030-01-01T00:59:00");
       trace := [EvNow] |}.
Proof. reflexivity. Qed.

(** C4, the failing run: the stored record has an empty [refresh_token] and
    the environment configures one; [get_access_token] raises its "no
    refresh token" error without trying the configured one. *)
Lemma empty_stored_refresh_token_hides_configured :
  BQE_REFRESH_TOKEN_ENV (sample_env unauthorized) = Some "seed" /\
  get_access_token (py := python_sample) (sample_env unauthorized) (expired_world (JStr "")) =
    (Raise (RuntimeError "No refresh token in .env or token.json"),
     {| token_file := token_file (expired_world (JStr "")); trace := [EvNow] |}).
Proof. split; reflexivity. Qed.

(** ** Per-client endpoints: the record fetch and the page loop *)

Section LoopResults.

Context {py : Builtins}.
Variable E : environment.

Lemma fresh_headers (w : world) (token : json) :
  token_fresh E w token ->
  get_headers E w =
    (Return (bearer token), {| token_file := token_file w; trace := trace w ++ [EvNow] |}).
Proof.
  intros (d & s & t & Hfile & Hexp & Hparse & Htok & Hclock).
  apply (headers_run E w d s t token); auto.
Qed.

Lemma fresh_same_file (w w' : world) (token : json) :
  token_file w' = token_file w -> token_fresh E w token -> token_fresh E w' token.
Proof.
  intros Heq (d & s & t & Hfile & H). exists d, s, t. rewrite Heq. auto.
Qed.

Lemma loop_items_page (r : response) (l : list json) :
  page_of r l ->
  status_code r = 200 /\ exists data, body r = Some data /\ loop_items data = JList l.
Proof.
  intros [Hst [Hb | (d & Hb & Hitems)]]; split; auto.
  - exists (JList l). auto.
  - exists (JDict d). split; auto. unfold loop_items, dget_default. now rewrite Hitems.
Qed.

Lemma seq_flat_map_cons {A : Type} (f : nat -> list A) (p n : nat) :
  flat_map f (seq p (S n)) = f p ++ flat_map f (seq (S p) n).
Proof. reflexivity. Qed.

Lemma fetch_all_run (url client_id : string) (token : json) (tail : list json)
    (full : list (list json)) :
  forall (fuel p : nat) (acc : list json) (w : world),
    token_fresh E w token ->
    (forall k l, nth_error full k = Some l ->
       (100 <= List.length l)%nat /\
       forall tr h,
         page_of (requests_get E tr url h (client_query client_id (Z.of_nat (p + k)))) l) ->
    (forall tr h,
       closing_page
         (requests_get E tr url h (client_query client_id (Z.of_nat (p + List.length full))))
         tail) ->
    (List.length full < fuel)%nat ->
    fetch_all E fuel url client_id (Z.of_nat p) acc w =
      (Return (acc ++ List.concat full ++ tail),
       {| token_file := token_file w;
          trace := trace w ++
                   flat_map (page_round url client_id token) (seq p (S (List.length full))) |}).
Proof.
  induction full as [| l rest IH]; intros fuel p acc w Hfresh Hfull Hlast Hfuel.
  - destruct fuel as [| fuel]; [simpl in Hfuel; lia |].
    cbn [fetch_all]. unfold bind at 1. rewrite (fresh_headers w token Hfresh).
    unfold bind at 1. unfold get at 1. cbn [log trace token_file].
    specialize (Hlast (trace w ++ [EvNow]) (bearer token)).
    cbn [List.length] in Hlast. rewrite Nat.add_0_r in Hlast.
    cbn [seq flat_map page_round List.concat]. rewrite !app_nil_r.
    rewrite <- !app_assoc. cbn [app].
    destruct Hlast as [[Hbad ->] | [Hpage Hshort]].
    + apply Z.eqb_neq in Hbad. rewrite Hbad. rewrite app_nil_r. reflexivity.
    + destruct (loop_items_page _ _ Hpage) as (Hst & data & Hb & Hitems).
      rewrite Hst. cbn [Z.eqb Pos.eqb negb]. unfold bind at 1, lift at 1, response_json.
      rewrite Hb. rewrite Hitems.
      destruct tail as [| x tail'].
      * cbn [truthy negb]. rewrite app_nil_r. reflexivity.
      * cbn [truthy negb]. unfold bind, lift, ret. cbn [py_iter py_len].
        assert (Hlt : (Z.of_nat (List.length (x :: tail')) <? 100) = true)
          by (apply Z.ltb_lt; lia).
        rewrite Hlt. reflexivity.
  - destruct fuel as [| fuel]; [simpl in Hfuel; lia |].
    cbn [fetch_all]. unfold bind at 1. rewrite (fresh_headers w token Hfresh).
    unfold bind at 1. unfold get at 1. cbn [log trace token_file].
    destruct (Hfull 0%nat l eq_refl) as [Hlong Hpage].
    specialize (Hpage (trace w ++ [EvNow]) (bearer token)).
    rewrite Nat.add_0_r in Hpage.
    destruct (loop_items_page _ _ Hpage) as (Hst & data & Hb & Hitems).
    rewrite Hst. cbn [Z.eqb Pos.eqb negb]. unfold bind at 1, lift at 1, response_json.
    rewrite Hb. rewrite Hitems.
    destruct l as [| x l']; [simpl in Hlong; lia |].
    cbn [truthy negb]. unfold bind at 1, lift at 1. cbn [py_iter].
    unfold bind at 1, lift at 1. cbn [py_len].
    assert (Hge : (Z.of_nat (List.length (x :: l')) <? 100) = false)
      by (apply Z.ltb_ge; lia).
    rewrite Hge.
    replace (Z.of_nat p + 1) with (Z.of_nat (S p)) by lia.
    rewrite (IH fuel (S p) (acc ++ x :: l')
               {| token_file := token_file w;
                  trace := (trace w ++ [EvNow]) ++
                           [EvGet url (bearer token) (client_query client_id (Z.of_nat p))] |}).
    + cbn [trace token_file List.length List.concat].
      rewrite seq_flat_map_cons. cbn [page_round].
      rewrite <- !app_assoc. reflexivity.
    + apply (fresh_same_file w); [reflexivity | exact Hfresh].
    + intros k l0 Hk. replace (S p + k)%nat with (p + S k)%nat by lia.
      apply Hfull. exact Hk.
    + intros tr h. replace (S p + List.length rest)%nat with (p + S (List.length rest))%nat
        by lia.
      apply Hlast.
    + simpl in Hfuel. lia.
Qed.

(** C5. With a token that stays valid, and an upstream whose pages 1 to
    [n] hold at least 100 items each (as an object with ["items"] or as a
    bare list, page by page) and whose page [n + 1] fails with a status
    other than 200, is empty, or holds fewer than 100 items: the loop asks
    for pages 1, 2, ..., [n + 1] in this order and nothing else, and returns
    the items of all pages in page order (those gathered before a failed
    page when the last request fails) instead of raising. *)
Theorem fetch_all_concatenates (url client_id : string) (token : json)
    (full : list (list json)) (tail : list json) (fuel : nat) (w : world) :
  token_fresh E w token ->
  (forall k l, nth_error full k = Some l ->
     (100 <= List.length l)%nat /\
     forall tr h,
       page_of (requests_get E tr url h (client_query client_id (Z.of_nat (1 + k)))) l) ->
  (forall tr h,
     closing_page
       (requests_get E tr url h (client_query client_id (Z.of_nat (1 + List.length full))))
       tail) ->
  (List.length full < fuel)%nat ->
  fetch_all E fuel url client_id 1 [] w =
    (Return (List.concat full ++ tail),
     {| token_file := token_file w;
        trace := trace w ++
                 flat_map (page_round url client_id token) (seq 1 (S (List.length full))) |}).
Proof.
  intros Hfresh Hfull Hlast Hfuel.
  exact (fetch_all_run url client_id token tail full fuel 1%nat [] w Hfresh Hfull Hlast Hfuel).
Qed.

Lemma fetch_client_refused (client_id : string) (w w1 : world) (hdrs : headers) :
  get_headers E w = (Return hdrs, w1) ->
  status_code (requests_get E (trace w1) (client_url client_id) hdrs None) <> 200 ->
  fetch_client E client_id w =
    (Raise (HTTPException 404 "Client not found"),
     {| token_file := token_file w1;
        trace := trace w1 ++ [EvGet (client_url client_id) hdrs None] |}).
Proof.
  intros Hh Hbad. unfold fetch_client, bind. rewrite Hh.
  unfold get. fold (client_url client_id).
  apply Z.eqb_neq in Hbad. rewrite Hbad. reflexivity.
Qed.

(** C10. In both per-client endpoints, any status other than 200 on the
    client record fetch (401, 404, 5xx alike) is raised as a 404 "Client not
    found"; that fetch is the last request made, so no page is asked for. *)
Theorem client_fetch_failure_is_404 (fuel : nat) (client_id : string) (w w1 : world)
    (hdrs : headers) :
  get_headers E w = (Return hdrs, w1) ->
  status_code (requests_get E (trace w1) (client_url client_id) hdrs None) <> 200 ->
  let after :=
    {| token_file := token_file w1;
       trace := trace w1 ++ [EvGet (client_url client_id) hdrs None] |} in
  get_client_resources E fuel client_id w =
    (Raise (HTTPException 404 "Client not found"), after) /\
  get_client_timeentries E fuel client_id w =
    (Raise (HTTPException 404 "Client not found"), after).
Proof.
  intros Hh Hbad after. split.
  - unfold get_client_resources. unfold bind at 1.
    rewrite (fetch_client_refused client_id w w1 hdrs Hh Hbad). reflexivity.
  - unfold get_client_timeentries. unfold bind at 1.
    rewrite (fetch_client_refused client_id w w1 hdrs Hh Hbad). reflexivity.
Qed.

End LoopResults.

(** C5, on a run: 100 items on page 1 and three on page 2 give 103 items
    after two requests. *)
Lemma fetch_all_concatenates_witness :
  fetch_all (py := python_sample) (sample_env two_pages) 5 project_url "42" 1 [] valid_world =
    (Return (repeat (JInt 7) 100 ++ [JInt 1; JInt 2; JInt 3]),
     {| token_file := token_file valid_world;
        trace := [EvNow; EvGet project_url (bearer (JStr "cached")) (client_query "42" 1);
                  EvNow; EvGet project_url (bearer (JStr "cached")) (client_query "42" 2)] |}).
Proof.
  apply (fetch_all_concatenates (py := python_sample) (sample_env two_pages)
           project_url "42" (JStr "cached") [repeat (JInt 7) 100] [JInt 1; JInt 2; JInt 3]
           5%nat valid_world).
  - exists [("access_token", JStr "cached"); ("refresh_token", JStr "kept");
            ("expires_at", JStr "2030-01-01T00:59:00+00:00")],
      "2030-01-01T00:59:00+00:00", 1893459540000000.
    repeat split; reflexivity.
  - intros [| k] l Hk.
    + injection Hk as <-. split; [vm_compute; lia |].
      intros tr h. split; [reflexivity |].
      right. eexists. split; reflexivity.
    + destruct k; discriminate.
  - intros tr h. right. split; [| simpl; lia].
    split; [reflexivity | left; reflexivity].
  - simpl. lia.
Defined.

(** C10, on a run: an upstream that answers 500 to everything. *)
Lemma client_fetch_failure_is_404_witness :
  get_client_resources (py := python_sample) (sample_env broken) 10 "42" valid_world =
    (Raise (HTTPException 404 "Client not found"),
     {| token_file := token_file valid_world;
        trace := [EvNow; EvGet (client_url "42") (bearer (JStr "cached")) None] |}) /\
  get_client_timeentries (py := python_sample) (sample_env broken) 10 "42" valid_world =
    (Raise (HTTPException 404 "Client not found"),
     {| token_file := token_file valid_world;
        trace := [EvNow; EvGet (client_url "42") (bearer (JStr "cached")) None] |}).
Proof.
  apply (client_fetch_failure_is_404 (py := python_sample) (sample_env broken) 10 "42"
           valid_world {| token_file := token_file valid_world; trace := [EvNow] |}
           (bearer (JStr "cached"))).
  - reflexivity.
  - vm_compute. discriminate.
Defined.

(** C6, the failing run: page 1 of [/project] comes back with status 200
    and a body that is not JSON.  The page loop of
    [/clients/{id}/resources] lets the decoding error through, so the
    request fails; [safe_get] turns the same answer into an empty list. *)
Lemma malformed_page_fails_the_request :
  get_client_resources (py := python_sample) (sample_env malformed_pages) 10 "42" valid_world =
    (Raise JSONDecodeError,
     {| token_file := token_file valid_world;
        trace := [EvNow; EvGet (client_url "42") (bearer (JStr "cached")) None;
                  EvNow; EvGet project_url (bearer (JStr "cached")) (client_query "42" 1)] |}) /\
  safe_get (py := python_sample) (sample_env malformed_pages) project_url (query 1 100)
    valid_world =
    (Return (JList []),
     {| token_file := token_file valid_world;
        trace := [EvNow; EvGet project_url (bearer (JStr "cached")) (query 1 100)] |}).
Proof. split; reflexivity. Qed.

(** ** [/projects]: the status filter *)

Section ProjectsResults.

Context {py : Builtins}.
Variable E : environment.

Lemma filter_status_objects (code : Z) (items : list json) :
  Forall is_object items ->
  filter_status code items = Return (filter (has_status code) items).
Proof.
  induction 1 as [| p rest [d ->] _ IH]; [reflexivity |].
  cbn [filter_status filter]. rewrite IH. cbn [obind].
  unfold has_status at 1. cbn [project_status]. reflexivity.
Qed.

Lemma status_map_named (name : string) (code : Z) :
  In (name, code) [("active", 0); ("complete", 2); ("hold", 3); ("inactive", 4)] ->
  assoc name STATUS_MAP = Some code.
Proof.
  intros [H | [H | [H | [H | []]]]]; injection H as <- <-; reflexivity.
Qed.

Lemma status_map_other (name : string) :
  ~ In name ["active"; "complete"; "hold"; "inactive"] ->
  assoc name STATUS_MAP = None.
Proof.
  intros Hout. unfold STATUS_MAP. cbn [assoc].
  repeat match goal with
  | |- context [String.eqb name ?s] =>
      destruct (String.eqb_spec name s) as [-> | _];
        [exfalso; apply Hout; simpl; tauto |]
  end.
  reflexivity.
Qed.

Lemma get_projects_run (page : Z) (status : option string) (w w1 : world)
    (data : json) (items : list json) :
  safe_get E project_url (query page 100) w = (Return data, w1) ->
  page_items data = JList items ->
  Forall is_object items ->
  get_projects E page status w =
    (Return
       (match requested_status status with
        | Some (name, code) => projects_page page name data (filter (has_status code) items)
        | None => projects_page page "all" data items
        end), w1).
Proof.
  intros Hget Hitems Hobj.
  unfold get_projects. fold project_url. unfold bind at 1. rewrite Hget.
  rewrite Hitems.
  destruct (requested_status status) as [[name code] |].
  - unfold bind, lift, ret. cbn [py_iter obind].
    rewrite (filter_status_objects code items Hobj). cbn [obind].
    unfold page_total, projects_page. cbn [py_len obind].
    destruct data; reflexivity.
  - unfold bind, lift, ret.
    unfold page_total, projects_page. cbn [py_len obind].
    destruct data; reflexivity.
Qed.

(** C7. Once the page is fetched, [/projects] looks the status up after
    stripping and lowercasing it: exactly ["active"], ["complete"],
    ["hold"] and ["inactive"] stand for the codes 0, 2, 3 and 4, the page is
    then cut down to the projects whose [status] equals the code and the
    normalised name is reported as the filter; any other string, the empty
    string and an absent status leave the page as it is and report
    ["all"].  (The source tests [status] for emptiness before normalising
    it.) *)
Theorem get_projects_status_filter (page : Z) (status : option string) (w w1 : world)
    (data : json) (items : list json) :
  safe_get E project_url (query page 100) w = (Return data, w1) ->
  page_items data = JList items ->
  Forall is_object items ->
  (forall s name code,
     status = Some s -> s <> "" ->
     str_lower (str_strip s) = name ->
     In (name, code) [("active", 0); ("complete", 2); ("hold", 3); ("inactive", 4)] ->
     get_projects E page status w =
       (Return (projects_page page name data (filter (has_status code) items)), w1)) /\
  (status = None \/ status = Some "" \/
   (exists s, status = Some s /\
      ~ In (str_lower (str_strip s)) ["active"; "complete"; "hold"; "inactive"]) ->
   get_projects E page status w = (Return (projects_page page "all" data items), w1)).
Proof.
  intros Hget Hitems Hobj.
  pose proof (get_projects_run page status w w1 data items Hget Hitems Hobj) as Hrun.
  split.
  - intros s name code -> Hs Hname Hin.
    rewrite Hrun. unfold requested_status.
    apply String.eqb_neq in Hs. rewrite Hs, Hname.
    rewrite (status_map_named name code Hin). reflexivity.
  - intros [-> | [-> | (s & -> & Hout)]]; rewrite Hrun; try reflexivity.
    unfold requested_status.
    destruct (String.eqb s ""); [reflexivity |].
    rewrite (status_map_other _ Hout). reflexivity.
Qed.

End ProjectsResults.

(** C7, on a run: [?status= Active ] keeps the two projects of status 0 out
    of three and reports ["active"]. *)
Lemma get_projects_status_filter_witness :
  get_projects (py := python_sample) (sample_env small_client) 1 (Some " Active ") valid_world =
    (Return
       {| pr_page := 1;
          pr_filter := "active";
          pr_count := 2;
          pr_total_in_bqe := JInt 57;
          pr_projects :=
            JList
              [JDict [("status", JInt 0); ("managerId", JStr "A"); ("manager", JStr "Ann");
                      ("principalId", JStr "B"); ("principal", JStr "Bob")];
               JDict [("status", JInt 0)]] |},
     {| token_file := token_file valid_world;
        trace := [EvNow; EvGet project_url (bearer (JStr "cached")) (query 1 100)] |}).
Proof.
  refine (proj1 (get_projects_status_filter (py := python_sample) (sample_env small_client)
                   1 (Some " Active ") valid_world _ _ _ eq_refl eq_refl _)
            " Active " "active" 0 eq_refl _ eq_refl _).
  - repeat constructor; eexists; reflexivity.
  - discriminate.
  - simpl. tauto.
Defined.

(** ** Dict lemmas *)

Lemma key_eqb_eq (a b : pykey) : key_eqb a b = true -> a = b.
Proof.
  destruct a, b; simpl; try discriminate; intros H; try reflexivity.
  - apply Z.eqb_eq in H. now subst.
  - apply andb_prop in H as [H He]. apply andb_prop in H as [Hs Hm].
    apply Bool.eqb_prop in Hs. apply Pos.eqb_eq in Hm. apply Z.eqb_eq in He. now subst.
  - apply Bool.eqb_prop in H. now subst.
  - apply String.eqb_eq in H. now subst.
Qed.

Lemma key_eqb_refl (k : pykey) : key_eqb k k = true.
Proof.
  destruct k; simpl; try reflexivity.
  - apply Z.eqb_refl.
  - now rewrite Bool.eqb_reflx, Pos.eqb_refl, Z.eqb_refl.
  - apply Bool.eqb_reflx.
  - apply String.eqb_refl.
Qed.

Section DictLemmas.

Variable V : Type.
Implicit Types (d : list (pykey * V)) (k : pykey).

Lemma dict_get_set k k' (v : V) d :
  dict_get k (dict_set k' v d) = if key_eqb k' k then Some v else dict_get k d.
Proof.
  induction d as [| [k0 v0] rest IH]; [reflexivity |].
  cbn [dict_set]. destruct (key_eqb k0 k') eqn:E0.
  - apply key_eqb_eq in E0. subst k0. cbn [dict_get].
    destruct (key_eqb k' k); reflexivity.
  - cbn [dict_get]. rewrite IH.
    destruct (key_eqb k0 k) eqn:E1; [| reflexivity].
    destruct (key_eqb k' k) eqn:E2; [| reflexivity].
    pose proof E1 as E1'. apply key_eqb_eq in E1, E2. subst. congruence.
Qed.

Lemma dict_get_update k k' (f : V -> V) d :
  dict_get k (dict_update k' f d) =
    if key_eqb k' k then option_map f (dict_get k d) else dict_get k d.
Proof.
  induction d as [| [k0 v0] rest IH].
  - cbn. destruct (key_eqb k' k); reflexivity.
  - cbn [dict_update]. destruct (key_eqb k0 k') eqn:E0.
    + apply key_eqb_eq in E0. subst k0. cbn [dict_get].
      destruct (key_eqb k' k); reflexivity.
    + cbn [dict_get]. rewrite IH.
      destruct (key_eqb k0 k) eqn:E1; [| reflexivity].
      destruct (key_eqb k' k) eqn:E2; [| reflexivity].
      pose proof E1 as E1'. apply key_eqb_eq in E1, E2. subst. congruence.
Qed.

Lemma dict_get_app k d d' :
  dict_get k (d ++ d') =
    match dict_get k d with Some v => Some v | None => dict_get k d' end.
Proof.
  induction d as [| [k0 v0] rest IH]; [reflexivity |].
  cbn [app dict_get]. destruct (key_eqb k0 k); [reflexivity | exact IH].
Qed.

Lemma dict_get_none k d :
  dict_get k d = None -> Forall (fun x => key_eqb (fst x) k = false) d.
Proof.
  induction d as [| [k0 v0] rest IH]; intros H; constructor.
  - cbn in *. destruct (key_eqb k0 k); [discriminate | reflexivity].
  - apply IH. cbn in H. destruct (key_eqb k0 k); [discriminate | exact H].
Qed.

Lemma dict_set_keys (P : pykey -> Prop) k (v : V) d :
  Forall (fun x => P (fst x)) d -> P k -> Forall (fun x => P (fst x)) (dict_set k v d).
Proof.
  induction 1 as [| [k0 v0] rest H0 Hrest IH]; intros Hk.
  - repeat constructor. exact Hk.
  - cbn [dict_set]. destruct (key_eqb k0 k); constructor; auto.
Qed.

Lemma dict_update_keys (P : pykey -> Prop) k (f : V -> V) d :
  Forall (fun x => P (fst x)) d -> Forall (fun x => P (fst x)) (dict_update k f d).
Proof.
  induction 1 as [| [k0 v0] rest H0 Hrest IH]; [constructor |].
  cbn [dict_update]. destruct (key_eqb k0 k); constructor; auto.
Qed.

Lemma dict_update_values (P : V -> Prop) k (f : V -> V) d :
  (forall v, P v -> P (f v)) ->
  Forall (fun x => P (snd x)) d -> Forall (fun x => P (snd x)) (dict_update k f d).
Proof.
  intros Hf. induction 1 as [| [k0 v0] rest H0 Hrest IH]; [constructor |].
  cbn [dict_update]. destruct (key_eqb k0 k); constructor; auto.
  apply Hf. exact H0.
Qed.

Lemma dict_set_distinct k (v : V) d : distinct_keys d -> distinct_keys (dict_set k v d).
Proof.
  unfold distinct_keys.
  induction 1 as [| [k0 v0] rest H0 Hrest IH]; [repeat constructor |].
  cbn [dict_set]. destruct (key_eqb k0 k) eqn:E0.
  - constructor; assumption.
  - constructor; [| exact IH].
    apply (dict_set_keys (fun k' => key_eqb k0 k' = false)); assumption.
Qed.

Lemma dict_update_distinct k (f : V -> V) d :
  distinct_keys d -> distinct_keys (dict_update k f d).
Proof.
  unfold distinct_keys.
  induction 1 as [| [k0 v0] rest H0 Hrest IH]; [constructor |].
  cbn [dict_update]. destruct (key_eqb k0 k) eqn:E0.
  - constructor; assumption.
  - constructor; [| exact IH].
    apply (dict_update_keys (fun k' => key_eqb k0 k' = false)). exact H0.
Qed.

Lemma dict_append_distinct k (v : V) d :
  dict_get k d = None -> distinct_keys d -> distinct_keys (d ++ [(k, v)]).
Proof.
  unfold distinct_keys. intros Hnone Hd.
  apply dict_get_none in Hnone.
  induction Hd as [| [k0 v0] rest H0 Hrest IH]; [repeat constructor |].
  cbn [app]. inversion Hnone as [| ? ? Hk0 Hnone']; subst.
  constructor; [| exact (IH Hnone')].
  apply Forall_app. split; [exact H0 |].
  constructor; [| constructor]. exact Hk0.
Qed.

Lemma dict_get_in k (v : V) d :
  distinct_keys d -> In (k, v) d -> dict_get k d = Some v.
Proof.
  unfold distinct_keys.
  induction 1 as [| [k0 v0] rest H0 Hrest IH]; intros Hin; [contradiction |].
  cbn [dict_get]. destruct Hin as [Heq | Hin].
  - injection Heq as -> ->. now rewrite key_eqb_refl.
  - destruct (key_eqb k0 k) eqn:E0; [| exact (IH Hin)].
    rewrite Forall_forall in H0. specialize (H0 _ Hin). cbn in H0. congruence.
Qed.

Lemma dict_get_some_in k (v : V) d : dict_get k d = Some v -> In (k, v) d.
Proof.
  induction d as [| [k0 v0] rest IH]; [discriminate |].
  cbn [dict_get]. destruct (key_eqb k0 k) eqn:E0.
  - intros [= ->]. apply key_eqb_eq in E0. subst k0. now left.
  - intros H. right. exact (IH H).
Qed.

Lemma distinct_keys_nodup d : distinct_keys d -> NoDup (map fst d).
Proof.
  unfold distinct_keys.
  induction 1 as [| [k0 v0] rest H0 Hrest IH]; [constructor |].
  cbn [map fst]. constructor; [| exact IH].
  intros Hin. apply in_map_iff in Hin as ([k1 v1] & Heq & Hin). cbn in Heq. subst k1.
  rewrite Forall_forall in H0. specialize (H0 _ Hin). cbn in H0.
  rewrite key_eqb_refl in H0. discriminate.
Qed.

End DictLemmas.

Arguments dict_get_set {V}.
Arguments dict_get_update {V}.
Arguments dict_get_app {V}.
Arguments dict_set_distinct {V}.
Arguments dict_update_distinct {V}.
Arguments dict_append_distinct {V}.
Arguments dict_update_values {V}.
Arguments dict_get_in {V}.
Arguments dict_get_some_in {V}.
Arguments distinct_keys_nodup {V}.

(** ** [/clients/{id}/resources]: one entry per person, last role wins *)

Lemma last_assigned_app (k : pykey) (l1 l2 : list (json * resource)) :
  last_assigned k (l1 ++ l2) =
    match last_assigned k l2 with Some r => Some r | None => last_assigned k l1 end.
Proof.
  induction l1 as [| [id r] rest IH]; cbn [app last_assigned].
  - destruct (last_assigned k l2); reflexivity.
  - rewrite IH. destruct (last_assigned k l2); reflexivity.
Qed.

Lemma assign_role_inv (idf namef role : string) (p : list (string * json))
    (acc out : list (pykey * resource)) :
  assign_role idf namef role p acc = Return out ->
  (distinct_keys acc -> distinct_keys out) /\
  forall k,
    dict_get k out =
      if truthy (dget idf p) && truthy (dget namef p) && names_key (dget idf p) k
      then Some {| r_name := dget namef p; r_role := role |}
      else dict_get k acc.
Proof.
  unfold assign_role, names_key.
  destruct (truthy (dget idf p) && truthy (dget namef p)).
  - destruct (hash_key (dget idf p)) as [k' | |]; cbn [obind]; try discriminate.
    intros [= <-]. split.
    + apply dict_set_distinct.
    + intros k. rewrite dict_get_set. reflexivity.
  - intros [= <-]. split; [auto | reflexivity].
Qed.

Lemma collect_resources_inv (projects : list json) :
  forall acc out,
    collect_resources projects acc = Return out ->
    (distinct_keys acc -> distinct_keys out) /\
    forall k,
      dict_get k out =
        match last_assigned k (flat_map assignments projects) with
        | Some r => Some r
        | None => dict_get k acc
        end.
Proof.
  induction projects as [| p rest IH]; intros acc out Hrun.
  - injection Hrun as <-. split; [auto | reflexivity].
  - cbn [collect_resources] in Hrun. destruct p as [| | | | | | d]; try discriminate.
    destruct (assign_role "managerId" "manager" "Project Manager" d acc) as [r1 | |] eqn:H1;
      cbn [obind] in Hrun; try discriminate.
    destruct (assign_role "principalId" "principal" "Principal" d r1) as [r2 | |] eqn:H2;
      cbn [obind] in Hrun; try discriminate.
    destruct (assign_role_inv _ _ _ _ _ _ H1) as [D1 G1].
    destruct (assign_role_inv _ _ _ _ _ _ H2) as [D2 G2].
    destruct (IH r2 out Hrun) as [D3 G3].
    split; [auto |].
    intros k. rewrite G3. cbn [flat_map]. rewrite last_assigned_app.
    destruct (last_assigned k (flat_map assignments rest)); [reflexivity |].
    rewrite G2, G1. unfold assignments.
    destruct (truthy (dget "managerId" d) && truthy (dget "manager" d));
      destruct (truthy (dget "principalId" d) && truthy (dget "principal" d));
      cbn [app last_assigned andb];
      repeat match goal with |- context [names_key ?a ?b] => destruct (names_key a b) end;
      reflexivity.
Qed.

Section ResourcesResults.

Context {py : Builtins}.
Variable E : environment.

(** C8. In the answer of [/clients/{id}/resources] the resources are the
    values of a dict keyed by person id in which no id occurs twice; an id
    has an entry exactly when some project assigns it a role, and the entry
    is then the last assignment made to it in project order (manager before
    principal inside one project).  In particular an id that a project names
    as principal, and that no later project assigns, is listed once, with
    the role ["Principal"], whatever earlier projects said. *)
Theorem resources_last_role_wins (fuel : nat) (client_id : string) (w w1 w2 w3 : world)
    (client_data : json) (projects : list json) (resp : resources_response) :
  fetch_client E client_id w = (Return client_data, w1) ->
  fetch_all E fuel project_url client_id 1 [] w1 = (Return projects, w2) ->
  get_client_resources E fuel client_id w = (Return resp, w3) ->
  exists resources : list (pykey * resource),
    rr_resources resp = map snd resources /\
    total_unique_resources resp = Z.of_nat (List.length resources) /\
    NoDup (map fst resources) /\
    distinct_keys resources /\
    (forall k, dict_get k resources = last_assigned k (flat_map assignments projects)) /\
    (forall k r,
       In (k, r) resources <-> last_assigned k (flat_map assignments projects) = Some r) /\
    (forall before d after k,
       projects = before ++ JDict d :: after ->
       truthy (dget "principalId" d) = true ->
       truthy (dget "principal" d) = true ->
       names_key (dget "principalId" d) k = true ->
       (forall q, In q after -> last_assigned k (assignments q) = None) ->
       dict_get k resources = Some {| r_name := dget "principal" d; r_role := "Principal" |} /\
       forall r, In (k, r) resources ->
         r = {| r_name := dget "principal" d; r_role := "Principal" |}).
Proof.
  intros Hclient Hpages Hrun.
  unfold get_client_resources in Hrun. fold project_url in Hrun.
  unfold bind at 1 in Hrun. rewrite Hclient in Hrun.
  unfold bind at 1 in Hrun. rewrite Hpages in Hrun.
  unfold bind at 1, lift at 1 in Hrun.
  destruct (collect_resources projects []) as [resources | |] eqn:Hcollect; try discriminate.
  unfold bind, lift, ret in Hrun.
  destruct (client_summary client_data) as [client | |]; try discriminate.
  injection Hrun as <- _.
  destruct (collect_resources_inv projects [] resources Hcollect) as [Hd Hg].
  exists resources. cbn [rr_resources total_unique_resources].
  assert (Hlast : forall k,
            dict_get k resources = last_assigned k (flat_map assignments projects)).
  { intros k. rewrite Hg. cbn [dict_get].
    destruct (last_assigned k (flat_map assignments projects)); reflexivity. }
  assert (Hdist : distinct_keys resources) by (apply Hd; constructor).
  assert (Hlisted : forall k r,
            In (k, r) resources <->
            last_assigned k (flat_map assignments projects) = Some r).
  { intros k r. rewrite <- Hlast. split.
    - now apply dict_get_in.
    - apply dict_get_some_in. }
  assert (Hprincipal : forall before d after k,
            projects = before ++ JDict d :: after ->
            truthy (dget "principalId" d) = true ->
            truthy (dget "principal" d) = true ->
            names_key (dget "principalId" d) k = true ->
            (forall q, In q after -> last_assigned k (assignments q) = None) ->
            dict_get k resources =
              Some {| r_name := dget "principal" d; r_role := "Principal" |}).
  { intros before d after k -> Hid Hname Hkey Hafter.
    rewrite Hlast, flat_map_app. cbn [flat_map].
    rewrite !last_assigned_app.
    assert (Hnone : last_assigned k (flat_map assignments after) = None).
    { clear - Hafter. induction after as [| q rest IH]; [reflexivity |].
      cbn [flat_map]. rewrite last_assigned_app, IH.
      - apply Hafter. now left.
      - intros q' Hq'. apply Hafter. now right. }
    rewrite Hnone. unfold assignments. rewrite Hid, Hname. cbn [andb].
    rewrite last_assigned_app. cbn [last_assigned]. rewrite Hkey. reflexivity. }
  split; [reflexivity |]. split; [reflexivity |].
  split; [now apply distinct_keys_nodup |]. split; [exact Hdist |].
  split; [exact Hlast |]. split; [exact Hlisted |].
  intros before d after k Hsplit Hid Hname Hkey Hafter.
  pose proof (Hprincipal before d after k Hsplit Hid Hname Hkey Hafter) as Hget.
  split; [exact Hget |].
  intros r Hin. apply (dict_get_in k r resources Hdist) in Hin. congruence.
Qed.

End ResourcesResults.

(** ** [/clients/{id}/timeentries]: grouping and totals *)

Lemma record_entry_get (k k' : pykey) (res_name : json) (hours : float)
    (detail : entry_detail) (acc : list (pykey * resource_group)) :
  entries_at k (record_entry k' res_name hours detail acc) =
    entries_at k acc ++ (if key_eqb k' k then [detail] else []).
Proof.
  unfold entries_at, record_entry.
  destruct (dict_get k' acc) as [g' |] eqn:Hk'.
  - rewrite dict_get_update.
    destruct (key_eqb k' k) eqn:Hkk; [| now rewrite app_nil_r].
    apply key_eqb_eq in Hkk. subst k'. rewrite Hk'. reflexivity.
  - rewrite dict_get_app. cbn [dict_get].
    destruct (key_eqb k' k) eqn:Hkk.
    + apply key_eqb_eq in Hkk. subst k'. rewrite Hk'. reflexivity.
    + destruct (dict_get k acc); now rewrite app_nil_r.
Qed.

Lemma record_entry_distinct (k : pykey) (res_name : json) (hours : float)
    (detail : entry_detail) (acc : list (pykey * resource_group)) :
  distinct_keys acc -> distinct_keys (record_entry k res_name hours detail acc).
Proof.
  intros Hd. unfold record_entry.
  destruct (dict_get k acc) eqn:Hk.
  - now apply dict_update_distinct.
  - now apply dict_append_distinct.
Qed.

Lemma record_entry_consistent (k : pykey) (res_name : json) (hours : float)
    (detail : entry_detail) (acc : list (pykey * resource_group)) :
  ed_hours detail = hours ->
  Forall (fun kv => group_consistent (snd kv)) acc ->
  Forall (fun kv => group_consistent (snd kv)) (record_entry k res_name hours detail acc).
Proof.
  intros Hh Hacc. unfold record_entry.
  destruct (dict_get k acc).
  - apply (dict_update_values group_consistent); [| exact Hacc].
    intros g Hg. unfold group_consistent in *. cbn [g_total_hours g_entries].
    unfold fsum. rewrite map_app, fold_left_app. cbn [map fold_left].
    fold (fsum (map ed_hours (g_entries g))). now rewrite <- Hg, Hh.
  - apply Forall_app. split; [exact Hacc |].
    constructor; [| constructor].
    unfold group_consistent, fsum. cbn. now rewrite Hh.
Qed.

Lemma filed_app (a b : list (pykey * resource_group)) : filed (a ++ b) = (filed a + filed b)%nat.
Proof. unfold filed. now rewrite map_app, list_sum_app. Qed.

Lemma filed_update (k : pykey) (detail : entry_detail) (hours : float)
    (acc : list (pykey * resource_group)) (g : resource_group) :
  dict_get k acc = Some g ->
  filed (dict_update k (fun g =>
           {| g_name := g_name g; g_total_hours := PrimFloat.add (g_total_hours g) hours;
              g_entries := g_entries g ++ [detail] |}) acc) = S (filed acc).
Proof.
  induction acc as [| [k0 g0] rest IH]; [discriminate |].
  cbn [dict_get dict_update]. destruct (key_eqb k0 k).
  - intros _. unfold filed, list_sum. cbn [map fold_right snd g_entries].
    rewrite length_app. cbn [List.length]. lia.
  - intros Hk. specialize (IH Hk). unfold filed, list_sum in *.
    cbn [map fold_right snd]. rewrite IH. lia.
Qed.

Lemma record_entry_filed (k : pykey) (res_name : json) (hours : float)
    (detail : entry_detail) (acc : list (pykey * resource_group)) :
  filed (record_entry k res_name hours detail acc) = S (filed acc).
Proof.
  unfold record_entry. destruct (dict_get k acc) as [g |] eqn:Hk.
  - exact (filed_update k detail hours acc g Hk).
  - rewrite filed_app. unfold filed at 2, list_sum.
    cbn [map fold_right snd g_entries List.length]. lia.
Qed.

Lemma counted_rows {py : Builtins} (groups : list (pykey * resource_group)) :
  counted (map (fun kv => resource_row (snd kv)) groups) = Z.of_nat (filed groups).
Proof.
  induction groups as [| [k g] rest IH]; [reflexivity |].
  unfold filed, list_sum, counted in *.
  cbn [map fold_right snd resource_row entry_count]. rewrite IH. lia.
Qed.

Lemma record_entry_name (k k' : pykey) (res_name : json) (hours : float)
    (detail : entry_detail) (acc : list (pykey * resource_group)) :
  option_map g_name (dict_get k (record_entry k' res_name hours detail acc)) =
    match option_map g_name (dict_get k acc) with
    | Some name => Some name
    | None => if key_eqb k' k then Some res_name else None
    end.
Proof.
  unfold record_entry. destruct (dict_get k' acc) as [g' |] eqn:Hk'.
  - rewrite dict_get_update. destruct (key_eqb k' k) eqn:Hkk.
    + apply key_eqb_eq in Hkk. subst k'. rewrite Hk'. reflexivity.
    + destruct (dict_get k acc); reflexivity.
  - rewrite dict_get_app. cbn [dict_get]. destruct (dict_get k acc); [reflexivity |].
    destruct (key_eqb k' k); reflexivity.
Qed.

Lemma record_entry_nonempty (k : pykey) (res_name : json) (hours : float)
    (detail : entry_detail) (acc : list (pykey * resource_group)) :
  Forall (fun kv => g_entries (snd kv) <> []) acc ->
  Forall (fun kv => g_entries (snd kv) <> []) (record_entry k res_name hours detail acc).
Proof.
  intros Hacc. unfold record_entry. destruct (dict_get k acc).
  - apply (dict_update_values (fun g => g_entries g <> [])); [| exact Hacc].
    intros g _. cbn [g_entries]. intros H. now apply app_eq_nil in H as [_ H].
  - apply Forall_app. split; [exact Hacc |].
    constructor; [| constructor]. cbn. discriminate.
Qed.

Section TimeEntriesResults.

Context {py : Builtins}.
Variable E : environment.

Lemma group_entries_inv (entries : list json) :
  forall acc out,
    group_entries entries acc = Return out ->
    (distinct_keys acc -> distinct_keys out) /\
    (Forall (fun kv => group_consistent (snd kv)) acc ->
     Forall (fun kv => group_consistent (snd kv)) out) /\
    forall k, entries_at k out = entries_at k acc ++ details_for k entries.
Proof.
  induction entries as [| e rest IH]; intros acc out Hrun.
  - injection Hrun as <-. repeat split; auto. intros k. cbn. now rewrite app_nil_r.
  - cbn [group_entries] in Hrun. destruct e as [| | | | | | d]; try discriminate.
    destruct (entry_hours d) as [hours | |] eqn:Hh; cbn [obind] in Hrun; try discriminate.
    destruct (hash_key (dget "resourceId" d)) as [k' | |] eqn:Hk;
      cbn [obind] in Hrun; try discriminate.
    destruct (IH _ _ Hrun) as (D & C & G).
    split; [| split].
    + intros Hd. apply D. now apply record_entry_distinct.
    + intros Hc. apply C. now apply record_entry_consistent.
    + intros k. rewrite G, record_entry_get. cbn [details_for].
      rewrite Hh. unfold names_key. rewrite Hk.
      rewrite <- app_assoc. destruct (key_eqb k' k); reflexivity.
Qed.

Lemma group_entries_more (entries : list json) :
  forall acc out,
    group_entries entries acc = Return out ->
    filed out = (filed acc + List.length entries)%nat /\
    forall k,
      option_map g_name (dict_get k out) =
        match option_map g_name (dict_get k acc) with
        | Some name => Some name
        | None => first_name k entries
        end.
Proof.
  induction entries as [| e rest IH]; intros acc out Hrun.
  - injection Hrun as <-. split; [cbn; lia |].
    intros k. cbn. destruct (option_map g_name (dict_get k acc)); reflexivity.
  - cbn [group_entries] in Hrun. destruct e as [| | | | | | d]; try discriminate.
    destruct (entry_hours d) as [hours | |]; cbn [obind] in Hrun; try discriminate.
    destruct (hash_key (dget "resourceId" d)) as [k' | |] eqn:Hk;
      cbn [obind] in Hrun; try discriminate.
    destruct (IH _ _ Hrun) as [Hfiled Hname]. split.
    + rewrite Hfiled, record_entry_filed. cbn [List.length]. lia.
    + intros k. rewrite Hname, record_entry_name. cbn [first_name].
      unfold names_key. rewrite Hk.
      destruct (option_map g_name (dict_get k acc)); [reflexivity |].
      destruct (key_eqb k' k); reflexivity.
Qed.

Lemma group_entries_nonempty (entries : list json) :
  forall acc out,
    group_entries entries acc = Return out ->
    Forall (fun kv => g_entries (snd kv) <> []) acc ->
    Forall (fun kv => g_entries (snd kv) <> []) out.
Proof.
  induction entries as [| e rest IH]; intros acc out Hrun Hacc.
  - now injection Hrun as <-.
  - cbn [group_entries] in Hrun. destruct e as [| | | | | | d]; try discriminate.
    destruct (entry_hours d) as [hours | |]; cbn [obind] in Hrun; try discriminate.
    destruct (hash_key (dget "resourceId" d)) as [k' | |];
      cbn [obind] in Hrun; try discriminate.
    apply (IH _ _ Hrun). now apply record_entry_nonempty.
Qed.

Lemma details_for_cons (k : pykey) (e : json) (rest : list json) (x : entry_detail) :
  In x (details_for k rest) -> In x (details_for k (e :: rest)).
Proof.
  intros H. cbn [details_for]. destruct e as [| | | | | | d]; try exact H.
  destruct (entry_hours d); try exact H.
  destruct (names_key (dget "resourceId" d) k); [now right | exact H].
Qed.

Lemma group_entries_files (entries : list json) :
  forall acc out,
    group_entries entries acc = Return out ->
    forall d, In (JDict d) entries ->
      exists k hours,
        hash_key (dget "resourceId" d) = Return k /\
        entry_hours d = Return hours /\
        In (entry_detail_of d hours) (details_for k entries).
Proof.
  induction entries as [| e rest IH]; intros acc out Hrun d Hin; [contradiction |].
  cbn [group_entries] in Hrun. destruct e as [| | | | | | d0]; try discriminate.
  destruct (entry_hours d0) as [hours | |] eqn:Hh; cbn [obind] in Hrun; try discriminate.
  destruct (hash_key (dget "resourceId" d0)) as [k' | |] eqn:Hk;
    cbn [obind] in Hrun; try discriminate.
  destruct Hin as [[= ->] | Hin].
  - exists k', hours. repeat split; auto.
    cbn [details_for]. rewrite Hh. unfold names_key. rewrite Hk, key_eqb_refl. now left.
  - destruct (IH _ _ Hrun d Hin) as (k & h & Hkey & Hhours & Hfiled).
    exists k, h. repeat split; auto. now apply details_for_cons.
Qed.

Lemma missing_hours_are_zero (d : list (string * json)) :
  assoc "actualHours" d = None \/ assoc "actualHours" d = Some JNull ->
  entry_hours d = Return 0%float.
Proof.
  intros [H | H]; unfold entry_hours, dget; rewrite H; reflexivity.
Qed.

(** C9. In the answer of [/clients/{id}/timeentries]: [total_time_entries]
    is the number of entries fetched; the rows are the values of a dict
    keyed by [resourceId] in which no key occurs twice.  The row of a key
    holds the details of exactly the fetched entries with that key, in
    order, and there is at least one; it is named after the first of them;
    its [total_hours] is [round(., 2)] of the left-to-right float sum, from
    0.0, of their hours, and its [entry_count] is their number.  Every
    fetched entry is filed in the row of its [resourceId], with the hours
    [float()] gives, which are exactly 0.0 when [actualHours] is missing or
    null. *)
Theorem timeentries_grouped (fuel : nat) (client_id : string) (w w1 w2 w3 : world)
    (client_data : json) (entries : list json) (resp : timeentries_response) :
  fetch_client E client_id w = (Return client_data, w1) ->
  fetch_all E fuel timeentry_url client_id 1 [] w1 = (Return entries, w2) ->
  get_client_timeentries E fuel client_id w = (Return resp, w3) ->
  total_time_entries resp = Z.of_nat (List.length entries) /\
  exists groups : list (pykey * resource_group),
    resources_with_hours resp = map (fun kv => resource_row (snd kv)) groups /\
    NoDup (map fst groups) /\
    distinct_keys groups /\
    (forall k, entries_at k groups = details_for k entries) /\
    (forall k g, In (k, g) groups ->
       row_entries (resource_row g) = details_for k entries /\
       details_for k entries <> [] /\
       first_name k entries = Some (resource_name (resource_row g)) /\
       total_hours (resource_row g) =
         round2 (fsum (map ed_hours (details_for k entries))) /\
       entry_count (resource_row g) = Z.of_nat (List.length (details_for k entries))) /\
    (forall d, In (JDict d) entries ->
       exists k hours,
         hash_key (dget "resourceId" d) = Return k /\
         entry_hours d = Return hours /\
         In (entry_detail_of d hours) (entries_at k groups) /\
         (assoc "actualHours" d = None \/ assoc "actualHours" d = Some JNull ->
          hours = 0%float)).
Proof.
  intros Hclient Hpages Hrun.
  unfold get_client_timeentries in Hrun. fold timeentry_url in Hrun.
  unfold bind at 1 in Hrun. rewrite Hclient in Hrun.
  unfold bind at 1 in Hrun. rewrite Hpages in Hrun.
  unfold bind at 1, lift at 1 in Hrun.
  destruct (group_entries entries []) as [groups | |] eqn:Hgroup; try discriminate.
  unfold bind, lift, ret in Hrun.
  destruct (client_summary client_data) as [client | |]; try discriminate.
  injection Hrun as <- _.
  destruct (group_entries_inv entries [] groups Hgroup) as (D & C & G).
  destruct (group_entries_more entries [] groups Hgroup) as [_ Hname].
  pose proof (group_entries_nonempty entries [] groups Hgroup (Forall_nil _)) as Hfull.
  assert (Hd : distinct_keys groups) by (apply D; constructor).
  assert (Hat : forall k, entries_at k groups = details_for k entries)
    by (intros k; exact (G k)).
  specialize (C (Forall_nil _)). rewrite Forall_forall in C, Hfull.
  cbn [total_time_entries resources_with_hours].
  split; [reflexivity |]. exists groups.
  split; [reflexivity |]. split; [now apply distinct_keys_nodup |].
  split; [exact Hd |]. split; [exact Hat |]. split.
  - intros k g Hin.
    pose proof (dict_get_in k g groups Hd Hin) as Hget.
    assert (Hentries : g_entries g = details_for k entries).
    { rewrite <- Hat. unfold entries_at. now rewrite Hget. }
    specialize (C _ Hin). specialize (Hfull _ Hin). cbn [snd] in C, Hfull.
    unfold group_consistent in C.
    specialize (Hname k). cbn [dict_get option_map] in Hname. rewrite Hget in Hname.
    cbn [resource_row row_entries resource_name total_hours entry_count].
    rewrite C, Hentries in *. repeat split; auto.
  - intros d Hin.
    destruct (group_entries_files entries [] groups Hgroup d Hin)
      as (k & hours & Hkey & Hhours & Hfiled).
    exists k, hours. rewrite Hat. repeat split; auto.
    intros Hmissing. apply missing_hours_are_zero in Hmissing. congruence.
Qed.

End TimeEntriesResults.

(** C8, on a run: Ann manages the first project and is principal of the
    second; she is listed once, as principal. *)
Lemma resources_last_role_wins_witness :
  exists resources : list (pykey * resource),
    rr_resources small_resources = map snd resources /\
    total_unique_resources small_resources = Z.of_nat (List.length resources) /\
    NoDup (map fst resources) /\
    distinct_keys resources /\
    (forall k, dict_get k resources = last_assigned k (flat_map assignments small_projects)) /\
    (forall k r,
       In (k, r) resources <-> last_assigned k (flat_map assignments small_projects) = Some r) /\
    (forall before d after k,
       small_projects = before ++ JDict d :: after ->
       truthy (dget "principalId" d) = true ->
       truthy (dget "principal" d) = true ->
       names_key (dget "principalId" d) k = true ->
       (forall q, In q after -> last_assigned k (assignments q) = None) ->
       dict_get k resources = Some {| r_name := dget "principal" d; r_role := "Principal" |} /\
       forall r, In (k, r) resources ->
         r = {| r_name := dget "principal" d; r_role := "Principal" |}).
Proof.
  apply (resources_last_role_wins (py := python_sample) (sample_env small_client) 5 "42"
           valid_world {| token_file := token_file valid_world;
                          trace := [EvNow; EvGet (client_url "42") (bearer (JStr "cached")) None] |}
           (after_one_page project_url) (after_one_page project_url)
           (JDict [("id", JStr "42"); ("company", JStr "Acme")])
           small_projects small_resources);
    reflexivity.
Defined.

(** C9, on a run: six entries of three resources, with hours given as
    text, as numbers, as null and not at all, make three rows of two
    entries; the ids [7] and [7.0] are one resource, and so are two NaN
    ids. *)
Lemma timeentries_grouped_witness :
  total_time_entries mixed_timeentries = Z.of_nat (List.length mixed_entries) /\
  exists groups : list (pykey * resource_group),
    resources_with_hours mixed_timeentries =
      map (fun kv => resource_row (py := python_sample) (snd kv)) groups /\
    NoDup (map fst groups) /\
    distinct_keys groups /\
    (forall k, entries_at k groups = details_for (py := python_sample) k mixed_entries) /\
    (forall k g, In (k, g) groups ->
       row_entries (resource_row (py := python_sample) g) =
         details_for (py := python_sample) k mixed_entries /\
       details_for (py := python_sample) k mixed_entries <> [] /\
       first_name k mixed_entries =
         Some (resource_name (resource_row (py := python_sample) g)) /\
       total_hours (resource_row (py := python_sample) g) =
         round2 (Builtins := python_sample)
           (fsum (map ed_hours (details_for (py := python_sample) k mixed_entries))) /\
       entry_count (resource_row (py := python_sample) g) =
         Z.of_nat (List.length (details_for (py := python_sample) k mixed_entries))) /\
    (forall d, In (JDict d) mixed_entries ->
       exists k hours,
         hash_key (dget "resourceId" d) = Return k /\
         entry_hours (py := python_sample) d = Return hours /\
         In (entry_detail_of d hours) (entries_at k groups) /\
         (assoc "actualHours" d = None \/ assoc "actualHours" d = Some JNull ->
          hours = 0%float)).
Proof.
  apply (timeentries_grouped (py := python_sample) (sample_env mixed_client) 5 "42"
           valid_world {| token_file := token_file valid_world;
                          trace := [EvNow; EvGet (client_url "42") (bearer (JStr "cached")) None] |}
           (after_one_page timeentry_url) (after_one_page timeentry_url)
           (JDict [("id", JStr "42"); ("company", JStr "Acme")])
           mixed_entries mixed_timeentries);
    reflexivity.
Defined.

(** ** Further facts about the token system and the decoding of answers *)

Section FurtherResults.

Context {py : Builtins}.
Variable E : environment.

(** X1. With an expired record, the refresh token is the record's whenever the
    record has the key, the configured one otherwise; the call raises when
    the token so chosen is empty or null, and otherwise goes on to the
    refresh exchange. *)
Theorem expired_record_refresh_source (w : world) (d : list (string * json))
    (s : string) (t : Z) :
  token_file w = Stored (JDict d) ->
  assoc "expires_at" d = Some (JStr s) ->
  fromisoformat s = Some (Aware t) ->
  t <= clock E (trace w) ->
  get_access_token E w =
    let w' := {| token_file := token_file w; trace := trace w ++ [EvNow] |} in
    let chosen :=
      match assoc "refresh_token" d with
      | Some kept => kept
      | None => getenv (BQE_REFRESH_TOKEN_ENV E)
      end in
    if truthy chosen then refresh_access_token E chosen w'
    else (Raise (RuntimeError "No refresh token in .env or token.json"), w').
Proof.
  intros Hfile Hexp Hparse Hpast.
  destruct w as [file tr]. cbn [token_file trace] in *. subst file.
  unfold get_access_token, bind, load_token_file. cbn [token_file trace].
  rewrite (assoc_some_truthy _ _ _ Hexp).
  unfold try_cached. rewrite Hexp, Hparse. unfold bind, now_utc.
  apply Z.ltb_ge in Hpast. cbn [token_file trace]. rewrite Hpast. unfold ret, lift.
  unfold choose_refresh_token. rewrite (assoc_some_truthy _ _ _ Hexp).
  unfold py_in, subscript, dindex. cbn [obind log token_file trace].
  destruct (assoc "refresh_token" d) as [kept |]; cbn zeta.
  - destruct (truthy kept); reflexivity.
  - destruct (truthy (getenv (BQE_REFRESH_TOKEN_ENV E))); reflexivity.
Qed.

(** X2. Without a readable token file the configured refresh token is used, and
    the call raises when none is configured. *)
Theorem no_record_refresh_source (w : world) :
  token_file w = NoFile \/ token_file w = Garbled ->
  get_access_token E w =
    if truthy (getenv (BQE_REFRESH_TOKEN_ENV E))
    then refresh_access_token E (getenv (BQE_REFRESH_TOKEN_ENV E)) w
    else (Raise (RuntimeError "No refresh token in .env or token.json"), w).
Proof.
  intros [Hfile | Hfile]; unfold get_access_token, bind, load_token_file;
    rewrite Hfile; cbn [truthy]; unfold ret, lift, choose_refresh_token;
    cbn [truthy]; destruct (truthy (getenv (BQE_REFRESH_TOKEN_ENV E))); reflexivity.
Qed.

(** X3. [safe_get]: a 200 answer whose body is not JSON becomes the empty list,
    after a single request. *)
Theorem safe_get_malformed_body_is_empty (url : string)
    (params : option (list (string * json))) (w w1 : world) (hdrs : headers) :
  get_headers E w = (Return hdrs, w1) ->
  status_code (requests_get E (trace w1) url hdrs params) = 200 ->
  body (requests_get E (trace w1) url hdrs params) = None ->
  safe_get E url params w =
    (Return (JList []),
     {| token_file := token_file w1; trace := trace w1 ++ [EvGet url hdrs params] |}).
Proof.
  intros Hh Hst Hbody. unfold safe_get. unfold bind at 1. rewrite Hh.
  unfold bind at 1. unfold get at 1. rewrite Hst.
  change (200 =? 401) with false. cbv iota. unfold bind, ret.
  rewrite Hst, Hbody. reflexivity.
Qed.

(** X4. The refresh exchange: a 200 answer whose body is not JSON raises, and
    nothing is saved. *)
Theorem refresh_malformed_body_raises (refresh_token : json) (w : world) :
  let r := requests_post E (trace w) BQE_TOKEN_URL (refresh_payload E refresh_token) in
  status_code r = 200 ->
  body r = None ->
  refresh_access_token E refresh_token w =
    (Raise JSONDecodeError,
     {| token_file := token_file w;
        trace := trace w ++ [EvPost BQE_TOKEN_URL (refresh_payload E refresh_token)] |}).
Proof.
  intros r Hst Hbody. unfold refresh_access_token. step.
  fold r. rewrite Hst. cbn [Z.eqb Pos.eqb negb].
  unfold response_json. fold r. rewrite Hbody. reflexivity.
Qed.

(** X5. The refresh exchange: any status other than 200 raises a [RuntimeError]
    that carries the answer's text, and nothing is saved. *)
Theorem refresh_rejected_raises (refresh_token : json) (w : world) :
  let r := requests_post E (trace w) BQE_TOKEN_URL (refresh_payload E refresh_token) in
  status_code r <> 200 ->
  refresh_access_token E refresh_token w =
    (Raise (RuntimeError (String.append "Token refresh failed: " (text r))),
     {| token_file := token_file w;
        trace := trace w ++ [EvPost BQE_TOKEN_URL (refresh_payload E refresh_token)] |}).
Proof.
  intros r Hst. unfold refresh_access_token. step.
  fold r. apply Z.eqb_neq in Hst. rewrite Hst. reflexivity.
Qed.

(** X6. The page loop: a 200 answer whose body is not JSON raises, whatever was
    gathered before. *)
Theorem fetch_all_malformed_page_raises (fuel : nat) (url client_id : string) (page : Z)
    (acc : list json) (w : world) (token : json) :
  let asked := EvGet url (bearer token) (client_query client_id page) in
  let r := requests_get E (trace w ++ [EvNow]) url (bearer token) (client_query client_id page) in
  token_fresh E w token ->
  status_code r = 200 ->
  body r = None ->
  fetch_all E (S fuel) url client_id page acc w =
    (Raise JSONDecodeError,
     {| token_file := token_file w; trace := trace w ++ [EvNow; asked] |}).
Proof.
  intros asked r Hfresh Hst Hbody.
  cbn [fetch_all]. unfold bind at 1. rewrite (fresh_headers E w token Hfresh).
  unfold bind at 1. unfold get at 1. cbn [log trace token_file].
  fold r. rewrite Hst. cbn [Z.eqb Pos.eqb negb].
  unfold bind at 1, lift at 1, response_json. fold r. rewrite Hbody.
  rewrite <- app_assoc. reflexivity.
Qed.

(** X7. Whenever the refresh exchange returns a token, the answer was a 200
    object carrying that token, and the record with it is in the token file:
    the save is the last effect before the return. *)
Theorem refresh_return_saved (refresh_token : json) (w w' : world) (token : json) :
  refresh_access_token E refresh_token w = (Return token, w') ->
  let sent := EvPost BQE_TOKEN_URL (refresh_payload E refresh_token) in
  let r := requests_post E (trace w) BQE_TOKEN_URL (refresh_payload E refresh_token) in
  let now := clock E (trace w ++ [sent]) in
  exists td lifetime seconds delta,
    status_code r = 200 /\
    body r = Some (JDict td) /\
    assoc "access_token" td = Some token /\
    assoc "expires_in" td = Some lifetime /\
    minus_60 lifetime = Return seconds /\
    timedelta_seconds seconds = Return delta /\
    let record := token_record token (dget_default "refresh_token" refresh_token td) (now + delta) in
    w' = {| token_file := Stored record; trace := trace w ++ [sent; EvNow; EvSave record] |}.
Proof.
  intros Hrun sent r now. unfold refresh_access_token in Hrun.
  unfold bind, ret, raise, lift, now_utc, post, save_token_file in Hrun.
  fold r in Hrun.
  destruct (status_code r =? 200) eqn:Hst; cbn [negb] in Hrun; [| discriminate].
  apply Z.eqb_eq in Hst.
  unfold response_json in Hrun. fold r in Hrun.
  destruct (body r) as [token_data |] eqn:Hbody; [| discriminate].
  destruct token_data as [| | | | | | td]; cbn [subscript] in Hrun; try discriminate.
  unfold dindex in Hrun.
  destruct (assoc "expires_in" td) as [lifetime |] eqn:Hlife; [| discriminate].
  destruct (minus_60 lifetime) as [seconds | |] eqn:Hsec; try discriminate.
  destruct (timedelta_seconds seconds) as [delta | |] eqn:Hdelta; try discriminate.
  cbn [log trace token_file] in Hrun. fold sent in Hrun. fold now in Hrun.
  unfold datetime_add in Hrun.
  destruct ((DT_MIN <=? now + delta) && (now + delta <=? DT_MAX)); [| discriminate].
  destruct (assoc "access_token" td) as [access |] eqn:Hacc; [| discriminate].
  cbn [py_get_default] in Hrun. injection Hrun as <- <-.
  exists td, lifetime, seconds, delta.
  repeat split; auto.
  cbn zeta. rewrite <- !app_assoc. reflexivity.
Qed.

End FurtherResults.

(** X1, on a run: the expired record's own refresh token is the one sent. *)
Lemma expired_record_refresh_source_witness :
  get_access_token (py := python_sample) (sample_env unauthorized) (expired_world (JStr "kept")) =
    refresh_access_token (py := python_sample) (sample_env unauthorized) (JStr "kept")
      {| token_file := token_file (expired_world (JStr "kept")); trace := [EvNow] |}.
Proof.
  apply (expired_record_refresh_source (py := python_sample) (sample_env unauthorized)
           (expired_world (JStr "kept"))
           [("access_token", JStr "old"); ("refresh_token", JStr "kept");
            ("expires_at", JStr "2000-01-01T00:00:00+00:00")]
           "2000-01-01T00:00:00+00:00" 946684800000000);
    try reflexivity.
  vm_compute. discriminate.
Defined.

(** X2, on a run: with no token file the configured seed is sent. *)
Lemma no_record_refresh_source_witness :
  get_access_token (py := python_sample) (sample_env unauthorized)
    {| token_file := NoFile; trace := [] |} =
    refresh_access_token (py := python_sample) (sample_env unauthorized) (JStr "seed")
      {| token_file := NoFile; trace := [] |}.
Proof.
  apply (no_record_refresh_source (py := python_sample) (sample_env unauthorized)
           {| token_file := NoFile; trace := [] |}).
  left. reflexivity.
Defined.

(** X3, on a run. *)
Lemma safe_get_malformed_body_is_empty_witness :
  safe_get (py := python_sample) (sample_env malformed_pages) project_url (query 1 100)
    valid_world =
    (Return (JList []),
     {| token_file := token_file valid_world;
        trace := [EvNow; EvGet project_url (bearer (JStr "cached")) (query 1 100)] |}).
Proof.
  apply (safe_get_malformed_body_is_empty (py := python_sample) (sample_env malformed_pages)
           project_url (query 1 100) valid_world
           {| token_file := token_file valid_world; trace := [EvNow] |}
           (bearer (JStr "cached")));
    reflexivity.
Defined.

(** X4, on a run. *)
Lemma refresh_malformed_body_raises_witness :
  refresh_access_token (py := python_sample) garbled_identity (JStr "seed")
    (expired_world (JStr "seed")) =
    (Raise JSONDecodeError,
     {| token_file := token_file (expired_world (JStr "seed"));
        trace := [EvPost BQE_TOKEN_URL (refresh_payload garbled_identity (JStr "seed"))] |}).
Proof.
  apply (refresh_malformed_body_raises (py := python_sample) garbled_identity (JStr "seed")
           (expired_world (JStr "seed")));
    reflexivity.
Defined.

(** X5, on a run. *)
Lemma refresh_rejected_raises_witness :
  refresh_access_token (py := python_sample) rejecting_identity (JStr "seed")
    (expired_world (JStr "seed")) =
    (Raise (RuntimeError "Token refresh failed: invalid_grant"),
     {| token_file := token_file (expired_world (JStr "seed"));
        trace := [EvPost BQE_TOKEN_URL (refresh_payload rejecting_identity (JStr "seed"))] |}).
Proof.
  apply (refresh_rejected_raises (py := python_sample) rejecting_identity (JStr "seed")
           (expired_world (JStr "seed"))).
  vm_compute. discriminate.
Defined.

(** X6, on a run. *)
Lemma fetch_all_malformed_page_raises_witness :
  fetch_all (py := python_sample) (sample_env malformed_pages) 1 project_url "42" 1 []
    valid_world =
    (Raise JSONDecodeError,
     {| token_file := token_file valid_world;
        trace := [EvNow; EvGet project_url (bearer (JStr "cached")) (client_query "42" 1)] |}).
Proof.
  apply (fetch_all_malformed_page_raises (py := python_sample) (sample_env malformed_pages)
           0 project_url "42" 1 [] valid_world (JStr "cached")); try reflexivity.
  exists [("access_token", JStr "cached"); ("refresh_token", JStr "kept");
          ("expires_at", JStr "2030-01-01T00:59:00+00:00")],
    "2030-01-01T00:59:00+00:00", 1893459540000000.
  repeat split; reflexivity.
Defined.

(** X7, on a run: the one-hour grant of the sample identity server. *)
Lemma refresh_return_saved_witness :
  exists td lifetime seconds delta,
    status_code grant = 200 /\
    body grant = Some (JDict td) /\
    assoc "access_token" td = Some (JStr "fresh") /\
    assoc "expires_in" td = Some lifetime /\
    minus_60 lifetime = Return seconds /\
    timedelta_seconds (py := python_sample) seconds = Return delta /\
    {| token_file := token_file (stored (JStr "fresh") (JStr "seed") "2030-01-01T00:59:00+00:00");
       trace :=
         [EvPost BQE_TOKEN_URL (refresh_payload (sample_env unauthorized) (JStr "seed"));
          EvNow;
          EvSave (JDict [("access_token", JStr "fresh"); ("refresh_token", JStr "seed");
                         ("expires_at", JStr "2030-01-01T00:59:00+00:00")])] |} =
    {| token_file :=
         Stored (token_record (py := python_sample) (JStr "fresh")
                   (dget_default "refresh_token" (JStr "seed") td) (NOON + delta));
       trace :=
         [EvPost BQE_TOKEN_URL (refresh_payload (sample_env unauthorized) (JStr "seed"));
          EvNow;
          EvSave (token_record (py := python_sample) (JStr "fresh")
                    (dget_default "refresh_token" (JStr "seed") td) (NOON + delta))] |}.
Proof.
  apply (refresh_return_saved (py := python_sample) (sample_env unauthorized) (JStr "seed")
           (expired_world (JStr "seed")) _ (JStr "fresh")).
  reflexivity.
Defined.

(** ** What the token system does to the world *)

Lemma posts_app (a b : list event) : posts (a ++ b) = (posts a + posts b)%nat.
Proof. unfold posts. now rewrite filter_app, length_app. Qed.

Lemma saves_app (a b : list event) : saves (a ++ b) = (saves a + saves b)%nat.
Proof. unfold saves. now rewrite filter_app, length_app. Qed.

Lemma asked_app (a b : list event) : asked (a ++ b) = asked a ++ asked b.
Proof. unfold asked. apply flat_map_app. Qed.

Section EffectResults.

Context {py : Builtins}.
Variable E : environment.

(** How a refresh exchange can end: with the record saved and the token
    returned, or without a token after the POST (and perhaps the clock
    read) and with the token file as it was. *)
Lemma refresh_shape (refresh_token : json) (w w' : world) (o : outcome json) :
  refresh_access_token E refresh_token w = (o, w') ->
  let sent := EvPost BQE_TOKEN_URL (refresh_payload E refresh_token) in
  (exists token record,
     o = Return token /\
     w' = {| token_file := Stored record; trace := trace w ++ [sent; EvNow; EvSave record] |}) \/
  ((forall token, o <> Return token) /\
   exists rest,
     (rest = [] \/ rest = [EvNow]) /\
     w' = {| token_file := token_file w; trace := trace w ++ sent :: rest |}).
Proof.
  intros Hrun sent. unfold refresh_access_token in Hrun.
  unfold bind, ret, raise, lift, now_utc, post, save_token_file in Hrun.
  cbn [log trace token_file] in Hrun. fold sent in Hrun.
  assert (Hearly : forall o0 : outcome json, (forall token, o0 <> Return token) ->
            (o0, {| token_file := token_file w; trace := trace w ++ [sent] |}) = (o, w') ->
            (forall token, o <> Return token) /\
            exists rest, (rest = [] \/ rest = [EvNow]) /\
              w' = {| token_file := token_file w; trace := trace w ++ sent :: rest |}).
  { intros o0 Hno [= <- <-]. split; [exact Hno |]. exists []. auto. }
  assert (Hlate : forall o0 : outcome json, (forall token, o0 <> Return token) ->
            (o0, {| token_file := token_file w; trace := (trace w ++ [sent]) ++ [EvNow] |})
              = (o, w') ->
            (forall token, o <> Return token) /\
            exists rest, (rest = [] \/ rest = [EvNow]) /\
              w' = {| token_file := token_file w; trace := trace w ++ sent :: rest |}).
  { intros o0 Hno [= <- <-]. split; [exact Hno |]. exists [EvNow].
    rewrite <- app_assoc. auto. }
  destruct (negb (status_code (requests_post E (trace w) BQE_TOKEN_URL
                                (refresh_payload E refresh_token)) =? 200)).
  { right. refine (Hearly _ _ Hrun); intros ? ?; discriminate. }
  destruct (response_json _) as [token_data | e |];
    [| right; refine (Hearly _ _ Hrun); intros ? ?; discriminate ..].
  destruct (subscript "expires_in" token_data) as [lifetime | e |];
    [| right; refine (Hlate _ _ Hrun); intros ? ?; discriminate ..].
  destruct (minus_60 lifetime) as [seconds | e |];
    [| right; refine (Hlate _ _ Hrun); intros ? ?; discriminate ..].
  destruct (timedelta_seconds seconds) as [delta | e |];
    [| right; refine (Hlate _ _ Hrun); intros ? ?; discriminate ..].
  destruct (datetime_add _ delta) as [expires_at | e |];
    [| right; refine (Hlate _ _ Hrun); intros ? ?; discriminate ..].
  destruct (subscript "access_token" token_data) as [access | e |];
    [| right; refine (Hlate _ _ Hrun); intros ? ?; discriminate ..].
  destruct (py_get_default "refresh_token" refresh_token token_data) as [refresh | e |];
    [| right; refine (Hlate _ _ Hrun); intros ? ?; discriminate ..].
  injection Hrun as <- <-. left. eexists _, _. split; [reflexivity |].
  rewrite <- !app_assoc. reflexivity.
Qed.

Lemma refresh_return_saved_shape (refresh_token : json) (w w' : world) (token : json) :
  refresh_access_token E refresh_token w = (Return token, w') ->
  exists record,
    subscript "access_token" record = Return token /\
    w' = {| token_file := Stored record;
            trace := trace w ++ [EvPost BQE_TOKEN_URL (refresh_payload E refresh_token);
                                 EvNow; EvSave record] |}.
Proof.
  intros Hrun. unfold refresh_access_token in Hrun.
  unfold bind, ret, raise, lift, now_utc, post, save_token_file in Hrun.
  cbn [log trace token_file] in Hrun.
  destruct (negb (status_code _ =? 200)); [discriminate |].
  destruct (response_json _) as [token_data | |]; try discriminate.
  destruct (subscript "expires_in" token_data) as [lifetime | |]; try discriminate.
  destruct (minus_60 lifetime) as [seconds | |]; try discriminate.
  destruct (timedelta_seconds seconds) as [delta | |]; try discriminate.
  destruct (datetime_add _ delta) as [expires_at | |]; try discriminate.
  destruct (subscript "access_token" token_data) as [access | |]; try discriminate.
  destruct (py_get_default "refresh_token" refresh_token token_data) as [refresh | |];
    try discriminate.
  injection Hrun as <- <-. exists (token_record access refresh expires_at).
  split; [reflexivity |].
  rewrite <- !app_assoc. reflexivity.
Qed.

Lemma refresh_counts (refresh_token : json) (w w' : world) (o : outcome json) :
  refresh_access_token E refresh_token w = (o, w') ->
  posts (trace w') = S (posts (trace w)) /\
  asked (trace w') = asked (trace w) /\
  ((forall token, o <> Return token) ->
   token_file w' = token_file w /\ saves (trace w') = saves (trace w)).
Proof.
  intros Hrun.
  destruct (refresh_shape _ _ _ _ Hrun) as
    [(token & record & -> & ->) | (Hno & rest & Hrest & ->)]; cbn [trace token_file].
  - rewrite posts_app, asked_app. cbn. rewrite app_nil_r.
    split; [lia |]. split; [reflexivity |].
    intros Hno. now destruct (Hno token).
  - rewrite posts_app, saves_app, asked_app.
    destruct Hrest as [-> | ->]; cbn; rewrite app_nil_r;
      (split; [lia |]); (split; [reflexivity |]); intros _; (split; [reflexivity | lia]).
Qed.

(** X8. A refresh exchange sends exactly one POST and no GET.  When it
    returns a token, the token file holds a record written by this call
    (one save); when it does not (rejected, malformed or incomplete answer,
    expiry out of range) the token file is left as it was and nothing is
    saved. *)
Theorem refresh_failure_keeps_token_file (refresh_token : json) (w w' : world)
    (o : outcome json) :
  refresh_access_token E refresh_token w = (o, w') ->
  posts (trace w') = S (posts (trace w)) /\
  asked (trace w') = asked (trace w) /\
  ((forall token, o <> Return token) ->
   token_file w' = token_file w /\ saves (trace w') = saves (trace w)) /\
  (forall token, o = Return token ->
   saves (trace w') = S (saves (trace w)) /\
   exists record, token_file w' = Stored record /\ subscript "access_token" record = Return token).
Proof.
  intros Hrun. pose proof (refresh_counts _ _ _ _ Hrun) as (Hp & Ha & Hf).
  repeat (split; [assumption |]).
  intros token ->.
  pose proof (refresh_return_saved_shape _ _ _ _ Hrun) as (record & Hrec & -> ).
  cbn [trace token_file]. rewrite saves_app. cbn. split; [lia |].
  exists record. split; [reflexivity | exact Hrec].
Qed.

Lemma try_cached_shape (data : json) (w w' : world) (o : outcome (option json)) :
  (if truthy data then try_cached E data else ret None) w = (o, w') ->
  (exists cached, o = Return cached) /\
  exists pre, (pre = [] \/ pre = [EvNow]) /\
    w' = {| token_file := token_file w; trace := trace w ++ pre |}.
Proof.
  assert (Hsame : forall c : option json, (Return c, w) = (o, w') ->
            (exists cached, o = Return cached) /\
            exists pre, (pre = [] \/ pre = [EvNow]) /\
              w' = {| token_file := token_file w; trace := trace w ++ pre |}).
  { intros c [= <- <-]. split; [eauto |]. exists []. rewrite app_nil_r.
    destruct w; auto. }
  assert (Hread : forall c : option json,
            (Return c, {| token_file := token_file w; trace := trace w ++ [EvNow] |}) = (o, w') ->
            (exists cached, o = Return cached) /\
            exists pre, (pre = [] \/ pre = [EvNow]) /\
              w' = {| token_file := token_file w; trace := trace w ++ pre |}).
  { intros c [= <- <-]. split; [eauto |]. exists [EvNow]. auto. }
  destruct (truthy data); [| apply Hsame].
  unfold try_cached, ret.
  destruct data as [| | | | | | d]; try apply Hsame.
  destruct (assoc "expires_at" d) as [[| | | | s | |] |]; try apply Hsame.
  destruct (fromisoformat s) as [[t | t] |]; try apply Hsame;
    unfold bind, now_utc, ret; cbn [log]; [apply Hread |].
  destruct (_ <? t); apply Hread.
Qed.

(** How [get_access_token] can end: after at most a clock read, either at
    once (cached token, or an exception before any request), or through one
    refresh exchange. *)
Lemma token_shape (w w' : world) (o : outcome json) :
  get_access_token E w = (o, w') ->
  exists pre, (pre = [] \/ pre = [EvNow]) /\
    let w0 := {| token_file := token_file w; trace := trace w ++ pre |} in
    w' = w0 \/ exists refresh_token, refresh_access_token E refresh_token w0 = (o, w').
Proof.
  unfold get_access_token. unfold bind at 1. unfold load_token_file.
  set (data := match token_file w with Stored data => data | _ => JNull end).
  unfold bind at 1.
  destruct ((if truthy data then try_cached E data else ret None) w) as [oc w0] eqn:Hc.
  destruct (try_cached_shape data w w0 oc Hc) as ((cached & ->) & pre & Hpre & ->).
  intros Hrun. exists pre. split; [exact Hpre |]. cbn zeta.
  destruct cached as [token |].
  - injection Hrun as <- <-. now left.
  - unfold bind, lift, raise in Hrun.
    destruct (choose_refresh_token E data) as [refresh_token | e |].
    + destruct (negb (truthy refresh_token)).
      * injection Hrun as <- <-. now left.
      * right. now exists refresh_token.
    + injection Hrun as <- <-. now left.
    + injection Hrun as <- <-. now left.
Qed.

Lemma token_counts (w w' : world) (o : outcome json) :
  get_access_token E w = (o, w') ->
  (posts (trace w') <= S (posts (trace w)))%nat /\ asked (trace w') = asked (trace w).
Proof.
  intros Hrun.
  destruct (token_shape w w' o Hrun) as (pre & Hpre & [-> | (rt & Hrefresh)]).
  - cbn [trace]. rewrite posts_app, asked_app.
    destruct Hpre as [-> | ->]; cbn; rewrite app_nil_r; split; auto; lia.
  - destruct (refresh_counts rt _ _ _ Hrefresh) as (Hp & Ha & _).
    cbn [trace] in *. rewrite posts_app in Hp. rewrite asked_app in Ha.
    destruct Hpre as [-> | ->]; cbn in Hp, Ha; rewrite app_nil_r in Ha; split; auto; lia.
Qed.

(** X9. Whatever the token file holds, [get_access_token] sends no GET and
    at most one refresh POST; when it raises, and whenever it sends no POST,
    the token file is left as it was. *)
Theorem get_access_token_effects (w w' : world) (o : outcome json) :
  get_access_token E w = (o, w') ->
  (posts (trace w') <= S (posts (trace w)))%nat /\
  asked (trace w') = asked (trace w) /\
  ((forall token, o <> Return token) -> token_file w' = token_file w) /\
  (posts (trace w') = posts (trace w) -> token_file w' = token_file w).
Proof.
  intros Hrun.
  destruct (token_shape w w' o Hrun) as (pre & Hpre & [-> | (rt & Hrefresh)]).
  - cbn [trace token_file]. rewrite posts_app, asked_app.
    destruct Hpre as [-> | ->]; cbn; rewrite app_nil_r; repeat split; auto; lia.
  - destruct (refresh_counts rt _ _ _ Hrefresh) as (Hp & Ha & Hf).
    cbn [trace token_file] in *. rewrite posts_app in Hp. rewrite asked_app in Ha.
    assert (Hpre0 : posts pre = 0%nat /\ asked pre = [])
      by (destruct Hpre as [-> | ->]; split; reflexivity).
    destruct Hpre0 as [Hp0 Ha0]. rewrite Hp0 in Hp. rewrite Ha0, app_nil_r in Ha.
    repeat split.
    + lia.
    + exact Ha.
    + intros Hno. apply (Hf Hno).
    + intros Heq. lia.
Qed.

Lemma headers_counts (w w' : world) (o : outcome headers) :
  get_headers E w = (o, w') ->
  (posts (trace w') <= S (posts (trace w)))%nat /\ asked (trace w') = asked (trace w).
Proof.
  unfold get_headers, bind. destruct (get_access_token E w) as [ot w1] eqn:Ht.
  destruct (token_counts w w1 ot Ht) as (Hp & Ha).
  destruct ot; intros [= <- <-]; auto.
Qed.

Lemma get_counts (url : string) (hdrs : headers) (params : option (list (string * json)))
    (w : world) :
  posts (trace (snd (get E url hdrs params w))) = posts (trace w) /\
  asked (trace (snd (get E url hdrs params w))) = asked (trace w) ++ [(url, params)].
Proof.
  unfold get. cbn [snd log trace]. rewrite posts_app, asked_app. cbn. split; [lia | reflexivity].
Qed.

(** X10. Whatever happens, [safe_get] sends at most two GETs, all of them
    the request it was asked for, and at most three refresh POSTs. *)
Theorem safe_get_effects (url : string) (params : option (list (string * json)))
    (w w' : world) (o : outcome json) :
  safe_get E url params w = (o, w') ->
  exists n,
    (n <= 2)%nat /\
    asked (trace w') = asked (trace w) ++ repeat (url, params) n /\
    (posts (trace w') <= posts (trace w) + 3)%nat.
Proof.
  unfold safe_get. unfold bind at 1.
  destruct (get_headers E w) as [oh w1] eqn:Hh.
  destruct (headers_counts w w1 oh Hh) as [Hp1 Ha1].
  destruct oh as [hdrs | e |].
  2, 3: intros [= <- <-]; exists 0%nat; cbn; rewrite app_nil_r; repeat split; auto; lia.
  unfold bind at 1.
  destruct (get_counts url hdrs params w1) as [Hp2 Ha2].
  destruct (get E url hdrs params w1) as [or w2] eqn:Hg. cbn [snd] in Hp2, Ha2.
  assert (Hor : or = Return (requests_get E (trace w1) url hdrs params))
    by (unfold get in Hg; now injection Hg as <- _).
  subst or.
  destruct (status_code (requests_get E (trace w1) url hdrs params) =? 401).
  - unfold bind at 1. unfold bind at 1.
    destruct (refresh_access_token E _ w2) as [ot w3] eqn:Hr.
    destruct (refresh_counts _ _ _ _ Hr) as (Hp3 & Ha3 & _).
    assert (Hone : asked (trace w3) = asked (trace w) ++ repeat (url, params) 1)
      by (rewrite Ha3, Ha2, Ha1; reflexivity).
    destruct ot as [token | e |].
    2, 3: intros [= <- <-]; exists 1%nat; repeat split; auto; lia.
    unfold bind at 1.
    destruct (get_headers E w3) as [oh' w4] eqn:Hh'.
    destruct (headers_counts w3 w4 oh' Hh') as [Hp4 Ha4].
    destruct oh' as [hdrs' | e |].
    2, 3: intros [= <- <-]; exists 1%nat; rewrite Ha4; repeat split; auto; lia.
    destruct (get_counts url hdrs' params w4) as [Hp5 Ha5].
    destruct (get E url hdrs' params w4) as [or' w5] eqn:Hg'. cbn [snd] in Hp5, Ha5.
    assert (Hor' : exists r', or' = Return r')
      by (unfold get in Hg'; injection Hg' as <- _; eauto).
    destruct Hor' as [r' ->].
    assert (Htwo : asked (trace w5) = asked (trace w) ++ repeat (url, params) 2)
      by (rewrite Ha5, Ha4, Hone, <- app_assoc; reflexivity).
    unfold raise, ret.
    destruct (negb (status_code r' =? 200)); intros [= <- <-];
      exists 2%nat; repeat split; auto; lia.
  - unfold bind, ret, raise.
    assert (Hone : asked (trace w2) = asked (trace w) ++ repeat (url, params) 1)
      by (rewrite Ha2, Ha1; reflexivity).
    destruct (negb (status_code _ =? 200)); intros [= <- <-];
      exists 1%nat; repeat split; auto; lia.
Qed.

(** X11. Whatever the upstream and the token system do, the page loop only
    sends GETs to its own address, for the pages [page], [page + 1], ... in
    this order without gap or repeat, at most one per turn. *)
Theorem fetch_all_asks_consecutive_pages (url client_id : string) (fuel : nat) :
  forall (page : Z) (acc : list json) (w w' : world) (o : outcome (list json)),
    fetch_all E fuel url client_id page acc w = (o, w') ->
    exists m,
      (m <= fuel)%nat /\
      asked (trace w') =
        asked (trace w) ++
        map (fun i => (url, client_query client_id (page + Z.of_nat i))) (seq 0 m).
Proof.
  induction fuel as [| fuel IH]; intros page acc w w' o.
  - intros [= <- <-]. exists 0%nat. cbn. now rewrite app_nil_r.
  - cbn [fetch_all]. unfold bind at 1.
    destruct (get_headers E w) as [oh w1] eqn:Hh.
    destruct (headers_counts w w1 oh Hh) as [_ Ha1].
    destruct oh as [hdrs | e |].
    2, 3: intros [= <- <-]; exists 0%nat; cbn; rewrite app_nil_r; auto with arith.
    unfold bind at 1.
    destruct (get_counts url hdrs (client_query client_id page) w1) as [_ Ha2].
    destruct (get E url hdrs (client_query client_id page) w1) as [or w2] eqn:Hg.
    cbn [snd] in Ha2.
    assert (Hor : exists r, or = Return r) by (unfold get in Hg; injection Hg as <- _; eauto).
    destruct Hor as [r ->].
    assert (Hone : asked (trace w2) =
              asked (trace w) ++
              map (fun i => (url, client_query client_id (page + Z.of_nat i))) (seq 0 1)).
    { rewrite Ha2, Ha1. cbn. now rewrite Z.add_0_r. }
    assert (Hstop : forall (o0 : outcome (list json)), (o0, w2) = (o, w') ->
              exists m, (m <= S fuel)%nat /\
                asked (trace w') =
                  asked (trace w) ++
                  map (fun i => (url, client_query client_id (page + Z.of_nat i))) (seq 0 m)).
    { intros o0 [= <- <-]. exists 1%nat. split; [lia | exact Hone]. }
    unfold ret, lift.
    destruct (negb (status_code r =? 200)); [apply Hstop |].
    unfold bind at 1. destruct (response_json r) as [data | e |]; try apply Hstop.
    destruct (negb (truthy (loop_items data))); [apply Hstop |].
    unfold bind at 1. destruct (py_iter (loop_items data)) as [elems | e |]; try apply Hstop.
    unfold bind at 1. destruct (py_len (loop_items data)) as [n | e |]; try apply Hstop.
    destruct (n <? 100); [apply Hstop |].
    intros Hrec. destruct (IH _ _ _ _ _ Hrec) as (m & Hm & Hasked).
    exists (S m). split; [lia |].
    rewrite Hasked, Hone, <- app_assoc. f_equal.
    change (seq 0 (S m)) with (0%nat :: seq 1 m). cbn [map app seq].
    f_equal. rewrite <- seq_shift, map_map.
    apply map_ext. intros i. f_equal. f_equal. lia.
Qed.

(** X12. A record written by [refresh_access_token] is read back by
    [get_access_token]: before its expiry the saved access token is
    returned without any request; from the expiry on, the saved refresh
    token is the one sent (and the call raises when that one is empty). *)
Theorem saved_record_round_trip (w : world) (access refresh : json) (expires_at : Z) :
  token_file w = Stored (token_record access refresh expires_at) ->
  fromisoformat (isoformat expires_at) = Some (Aware expires_at) ->
  get_access_token E w =
    let w1 := {| token_file := token_file w; trace := trace w ++ [EvNow] |} in
    if clock E (trace w) <? expires_at then (Return access, w1)
    else if truthy refresh then refresh_access_token E refresh w1
    else (Raise (RuntimeError "No refresh token in .env or token.json"), w1).
Proof.
  intros Hfile Hround.
  destruct w as [file tr]. cbn [token_file trace] in *. subst file.
  unfold get_access_token, bind, load_token_file, token_record.
  cbn [token_file trace truthy].
  unfold try_cached.
  change (assoc "expires_at" _) with (Some (JStr (isoformat expires_at))).
  cbv iota. rewrite Hround.
  unfold bind, now_utc, ret. cbn [trace log token_file].
  change (assoc "access_token" _) with (Some access).
  destruct (clock E tr <? expires_at); [reflexivity |].
  unfold lift, choose_refresh_token, raise, py_in, subscript, dindex. cbn [truthy].
  change (assoc "refresh_token" _) with (Some refresh). cbn [obind].
  destruct (truthy refresh); reflexivity.
Qed.

(** X13. A lifetime of 60 seconds or less is never served from the cache:
    the record is saved already expired, so as long as the clock does not go
    back the next [get_access_token] makes a new exchange with the refresh
    token just saved. *)
Theorem short_lifetime_is_refreshed_again (w : world) (refresh_token : json)
    (td : list (string * json)) (n : Z) (access : json) :
  let sent := EvPost BQE_TOKEN_URL (refresh_payload E refresh_token) in
  let r := requests_post E (trace w) BQE_TOKEN_URL (refresh_payload E refresh_token) in
  let now := clock E (trace w ++ [sent]) in
  let kept := match assoc "refresh_token" td with Some new => new | None => refresh_token end in
  let record :=
    JDict [("access_token", access); ("refresh_token", kept);
           ("expires_at", JStr (isoformat (now + (n - 60) * 1000000)))] in
  let w1 := {| token_file := Stored record; trace := trace w ++ [sent; EvNow; EvSave record] |} in
  status_code r = 200 ->
  body r = Some (JDict td) ->
  assoc "expires_in" td = Some (JInt n) ->
  assoc "access_token" td = Some access ->
  DT_MIN <= now <= DT_MAX ->
  DT_MIN <= now + (n - 60) * 1000000 <= DT_MAX ->
  n <= 60 ->
  now <= clock E (trace w1) ->
  truthy kept = true ->
  fromisoformat (isoformat (now + (n - 60) * 1000000)) = Some (Aware (now + (n - 60) * 1000000)) ->
  bind (refresh_access_token E refresh_token) (fun _ => get_access_token E) w =
    refresh_access_token E kept
      {| token_file := Stored record; trace := trace w1 ++ [EvNow] |}.
Proof.
  intros sent r now kept record w1 Hst Hbody Hexp Hacc Hnow Hsum Hshort Hmono Hkept Hround.
  unfold bind at 1.
  rewrite (refresh_run E w refresh_token td n access Hst Hbody Hexp Hacc Hnow Hsum).
  fold sent now kept record w1.
  unfold get_access_token, bind, load_token_file. subst w1. cbn [token_file trace].
  subst record. cbn [truthy]. unfold try_cached.
  change (assoc "expires_at" _) with (Some (JStr (isoformat (now + (n - 60) * 1000000)))).
  cbv iota. rewrite Hround.
  unfold bind, now_utc, ret. cbn [trace log token_file] in *.
  change (assoc "access_token" _) with (Some access).
  assert (Hpast : (clock E (trace w ++ [sent; EvNow;
                      EvSave (JDict [("access_token", access); ("refresh_token", kept);
                        ("expires_at", JStr (isoformat (now + (n - 60) * 1000000)))])])
                   <? now + (n - 60) * 1000000) = false)
    by (apply Z.ltb_ge; lia).
  rewrite Hpast.
  unfold lift, choose_refresh_token, raise, py_in, subscript, dindex. cbn [truthy].
  change (assoc "refresh_token" _) with (Some kept). cbn [obind].
  rewrite Hkept. rewrite <- !app_assoc. reflexivity.
Qed.

(** X14. A token file holding a bare number other than zero, or [true],
    makes [get_access_token] raise a [TypeError] at once: nothing is
    requested and the configured refresh token is not tried. *)
Theorem scalar_token_file_raises_type_error (w : world) (data : json) :
  token_file w = Stored data ->
  truthy data = true ->
  (data = JBool true \/ (exists n, data = JInt n) \/ exists f, data = JFloat f) ->
  get_access_token E w = (Raise TypeError, w).
Proof.
  intros Hfile Htruthy Hscalar.
  unfold get_access_token, bind, load_token_file. rewrite Hfile, Htruthy.
  unfold lift, choose_refresh_token. rewrite Htruthy.
  destruct Hscalar as [-> | [[n ->] | [f ->]]]; reflexivity.
Qed.

(** X15. A stored object whose [expires_at] is missing or does not parse is
    treated as expired without reading the clock: the refresh token comes
    from the record when it has the key and from the configuration
    otherwise. *)
Theorem unreadable_expiry_refreshes (w : world) (d : list (string * json)) :
  token_file w = Stored (JDict d) ->
  d <> [] ->
  (assoc "expires_at" d = None \/
   exists s, assoc "expires_at" d = Some (JStr s) /\ fromisoformat s = None) ->
  get_access_token E w =
    let chosen :=
      match assoc "refresh_token" d with
      | Some kept => kept
      | None => getenv (BQE_REFRESH_TOKEN_ENV E)
      end in
    if truthy chosen then refresh_access_token E chosen w
    else (Raise (RuntimeError "No refresh token in .env or token.json"), w).
Proof.
  intros Hfile Hd Hexp.
  assert (Htruthy : truthy (JDict d) = true) by (destruct d; [contradiction | reflexivity]).
  unfold get_access_token, bind, load_token_file. rewrite Hfile, Htruthy.
  assert (Hfall : try_cached E (JDict d) w = (Return None, w)).
  { unfold try_cached. destruct Hexp as [-> | (s & -> & ->)]; reflexivity. }
  rewrite Hfall. unfold lift, choose_refresh_token, raise. rewrite Htruthy.
  unfold py_in, subscript, dindex. cbn [obind]. cbn zeta.
  destruct (assoc "refresh_token" d) as [kept |].
  - destruct (truthy kept); reflexivity.
  - destruct (truthy (getenv (BQE_REFRESH_TOKEN_ENV E))); reflexivity.
Qed.

End EffectResults.

(** ** The list endpoints and [safe_get] *)

Section ListResults.

Context {py : Builtins}.
Variable E : environment.

(** [safe_get] when the first answer is not a 401: one request, and the
    answer decides. *)
Lemma safe_get_first (url : string) (params : option (list (string * json)))
    (w w1 : world) (hdrs : headers) :
  get_headers E w = (Return hdrs, w1) ->
  let r := requests_get E (trace w1) url hdrs params in
  status_code r <> 401 ->
  safe_get E url params w =
    (if status_code r =? 200
     then Return (match body r with Some j => j | None => JList [] end)
     else Raise (HTTPException (status_code r) (String.append "BQE Error: " (text r))),
     {| token_file := token_file w1; trace := trace w1 ++ [EvGet url hdrs params] |}).
Proof.
  intros Hh r Hnot. unfold safe_get. unfold bind at 1. rewrite Hh.
  unfold bind at 1. unfold get at 1. fold r.
  apply Z.eqb_neq in Hnot. rewrite Hnot. unfold bind, ret, raise. cbn [log].
  destruct (status_code r =? 200); reflexivity.
Qed.

(** X16. [/clients] and [/projects] pass an upstream failure on: a first
    answer with a status other than 200 and 401 is raised as an
    [HTTPException] with that same status and the upstream text, after a
    single request. *)
Theorem list_endpoints_surface_upstream_status (page : Z) (status : option string)
    (w w1 : world) (hdrs : headers) :
  get_headers E w = (Return hdrs, w1) ->
  (forall r, r = requests_get E (trace w1) clients_url hdrs (query page 50) ->
     status_code r <> 200 -> status_code r <> 401 ->
     get_clients E page w =
       (Raise (HTTPException (status_code r) (String.append "BQE Error: " (text r))),
        {| token_file := token_file w1;
           trace := trace w1 ++ [EvGet clients_url hdrs (query page 50)] |})) /\
  (forall r, r = requests_get E (trace w1) project_url hdrs (query page 100) ->
     status_code r <> 200 -> status_code r <> 401 ->
     get_projects E page status w =
       (Raise (HTTPException (status_code r) (String.append "BQE Error: " (text r))),
        {| token_file := token_file w1;
           trace := trace w1 ++ [EvGet project_url hdrs (query page 100)] |})).
Proof.
  intros Hh. split; intros r -> Hbad Hnot.
  - unfold get_clients. fold clients_url. unfold bind at 1.
    rewrite (safe_get_first clients_url (query page 50) w w1 hdrs Hh Hnot).
    apply Z.eqb_neq in Hbad. rewrite Hbad. reflexivity.
  - unfold get_projects. fold project_url. unfold bind at 1.
    rewrite (safe_get_first project_url (query page 100) w w1 hdrs Hh Hnot).
    apply Z.eqb_neq in Hbad. rewrite Hbad. reflexivity.
Qed.

(** X17. [/clients] on a 200 answer carrying a list of items, bare or under
    ["items"]: the answer repeats the page number and the items, [count] is
    their number, and [total] is the upstream's ["total"] when the answer is
    an object that has one and the count otherwise. *)
Theorem get_clients_page (page : Z) (w w1 : world) (hdrs : headers)
    (data : json) (items : list json) :
  get_headers E w = (Return hdrs, w1) ->
  let r := requests_get E (trace w1) clients_url hdrs (query page 50) in
  status_code r = 200 ->
  body r = Some data ->
  page_items data = JList items ->
  get_clients E page w =
    (Return {| cl_page := page;
               cl_count := Z.of_nat (List.length items);
               cl_total :=
                 match upstream_total data with
                 | Some total => total
                 | None => JInt (Z.of_nat (List.length items))
                 end;
               cl_clients := JList items |},
     {| token_file := token_file w1;
        trace := trace w1 ++ [EvGet clients_url hdrs (query page 50)] |}).
Proof.
  intros Hh r Hst Hbody Hitems.
  unfold get_clients. fold clients_url. unfold bind at 1.
  assert (Hnot : status_code r <> 401) by (rewrite Hst; discriminate).
  rewrite (safe_get_first clients_url (query page 50) w w1 hdrs Hh Hnot).
  fold r. rewrite Hst, Hbody. cbn [Z.eqb Pos.eqb].
  rewrite Hitems. unfold bind, lift, ret, page_total, upstream_total, dget_default.
  cbn [py_len obind]. destruct data; reflexivity.
Qed.

(** X18. When the upstream sends no ["total"], [/projects] reports as
    [total_in_bqe] the number of projects it shows, that is the number left
    after the status filter; with a ["total"] it passes that value on.  In
    both cases [count] is the number of projects shown, which are projects
    of the fetched page. *)
Theorem get_projects_count_and_total (page : Z) (status : option string) (w w1 : world)
    (data : json) (items : list json) :
  safe_get E project_url (query page 100) w = (Return data, w1) ->
  page_items data = JList items ->
  Forall is_object items ->
  exists resp shown,
    get_projects E page status w = (Return resp, w1) /\
    pr_projects resp = JList shown /\
    pr_count resp = Z.of_nat (List.length shown) /\
    incl shown items /\
    (List.length shown <= List.length items)%nat /\
    pr_total_in_bqe resp =
      match upstream_total data with
      | Some total => total
      | None => JInt (pr_count resp)
      end.
Proof.
  intros Hget Hitems Hobj.
  rewrite (get_projects_run E page status w w1 data items Hget Hitems Hobj).
  destruct (requested_status status) as [[name code] |].
  - eexists _, (filter (has_status code) items). split; [reflexivity |].
    cbn [projects_page pr_projects pr_count pr_total_in_bqe].
    repeat split.
    + apply incl_filter.
    + apply filter_length_le.
    + unfold upstream_total, dget_default. destruct data; reflexivity.
  - eexists _, items. split; [reflexivity |].
    cbn [projects_page pr_projects pr_count pr_total_in_bqe].
    repeat split.
    + apply incl_refl.
    + lia.
    + unfold upstream_total, dget_default. destruct data; reflexivity.
Qed.

(** [safe_get] after a first 401 and a successful forced refresh whose
    record is still valid at the retry: the retry's answer decides. *)
Lemma safe_get_second (url : string) (params : option (list (string * json)))
    (w w1 : world) (hdrs : headers) (td : list (string * json)) (n : Z) (access : json) :
  let first := EvGet url hdrs params in
  let seed := getenv (BQE_REFRESH_TOKEN_ENV E) in
  let sent := EvPost BQE_TOKEN_URL (refresh_payload E seed) in
  let r := requests_post E (trace w1 ++ [first]) BQE_TOKEN_URL (refresh_payload E seed) in
  let now := clock E (trace w1 ++ [first; sent]) in
  let expiry := now + (n - 60) * 1000000 in
  let record :=
    JDict [("access_token", access);
           ("refresh_token",
             match assoc "refresh_token" td with Some new => new | None => seed end);
           ("expires_at", JStr (isoformat expiry))] in
  let retry := EvGet url (bearer access) params in
  let r2 :=
    requests_get E (trace w1 ++ [first; sent; EvNow; EvSave record; EvNow])
      url (bearer access) params in
  get_headers E w = (Return hdrs, w1) ->
  status_code (requests_get E (trace w1) url hdrs params) = 401 ->
  status_code r = 200 ->
  body r = Some (JDict td) ->
  assoc "expires_in" td = Some (JInt n) ->
  assoc "access_token" td = Some access ->
  DT_MIN <= now <= DT_MAX ->
  DT_MIN <= expiry <= DT_MAX ->
  fromisoformat (isoformat expiry) = Some (Aware expiry) ->
  clock E (trace w1 ++ [first; sent; EvNow; EvSave record]) < expiry ->
  safe_get E url params w =
    (if status_code r2 =? 200
     then Return (match body r2 with Some j => j | None => JList [] end)
     else Raise (HTTPException (status_code r2) (String.append "BQE Error: " (text r2))),
     {| token_file := Stored record;
        trace := trace w1 ++ [first; sent; EvNow; EvSave record; EvNow; retry] |}).
Proof.
  intros first seed sent r now expiry record retry r2
    Hh H401 Hst Hbody Hexp Hacc Hnow Hsum Hround Hvalid.
  unfold safe_get. unfold bind at 1. rewrite Hh.
  unfold bind at 1. unfold get at 1. rewrite H401.
  change (401 =? 401) with true. cbv iota.
  unfold bind at 1. unfold bind at 1. unfold bind at 1.
  cbn [log trace token_file]. fold first. fold seed.
  pose (w2 := {| token_file := token_file w1; trace := trace w1 ++ [first] |}).
  fold w2.
  assert (Hrefresh : refresh_access_token E seed w2 =
            (Return access,
             {| token_file := Stored record;
                trace := trace w1 ++ [first; sent; EvNow; EvSave record] |})).
  { rewrite (refresh_run E w2 seed td n access); subst w2; cbn [trace].
    - rewrite <- !app_assoc. reflexivity.
    - exact Hst.
    - exact Hbody.
    - exact Hexp.
    - exact Hacc.
    - rewrite <- app_assoc. exact Hnow.
    - rewrite <- app_assoc. exact Hsum. }
  rewrite Hrefresh.
  match goal with
  | |- context [get_headers E ?w3] =>
      rewrite (headers_run E w3 _ (isoformat expiry) expiry access
                 eq_refl eq_refl Hround Hvalid eq_refl)
  end.
  cbn [trace token_file].
  unfold get, log. cbn [trace token_file].
  rewrite <- !app_assoc. cbn [app]. fold r2. fold retry.
  unfold bind, ret, raise. destruct (status_code r2 =? 200); reflexivity.
Qed.

(** X19. When the first answer is a 401, the forced refresh succeeds and
    the retry is answered 200, [safe_get] returns the retry's body: the
    caller does not see the 401. *)
Theorem safe_get_retry_succeeds (url : string) (params : option (list (string * json)))
    (w w1 : world) (hdrs : headers) (td : list (string * json)) (n : Z) (access : json)
    (answer_body : json) :
  let first := EvGet url hdrs params in
  let seed := getenv (BQE_REFRESH_TOKEN_ENV E) in
  let sent := EvPost BQE_TOKEN_URL (refresh_payload E seed) in
  let r := requests_post E (trace w1 ++ [first]) BQE_TOKEN_URL (refresh_payload E seed) in
  let now := clock E (trace w1 ++ [first; sent]) in
  let expiry := now + (n - 60) * 1000000 in
  let record :=
    JDict [("access_token", access);
           ("refresh_token",
             match assoc "refresh_token" td with Some new => new | None => seed end);
           ("expires_at", JStr (isoformat expiry))] in
  let retry := EvGet url (bearer access) params in
  let r2 :=
    requests_get E (trace w1 ++ [first; sent; EvNow; EvSave record; EvNow])
      url (bearer access) params in
  get_headers E w = (Return hdrs, w1) ->
  status_code (requests_get E (trace w1) url hdrs params) = 401 ->
  status_code r = 200 ->
  body r = Some (JDict td) ->
  assoc "expires_in" td = Some (JInt n) ->
  assoc "access_token" td = Some access ->
  DT_MIN <= now <= DT_MAX ->
  DT_MIN <= expiry <= DT_MAX ->
  fromisoformat (isoformat expiry) = Some (Aware expiry) ->
  clock E (trace w1 ++ [first; sent; EvNow; EvSave record]) < expiry ->
  status_code r2 = 200 ->
  body r2 = Some answer_body ->
  safe_get E url params w =
    (Return answer_body,
     {| token_file := Stored record;
        trace := trace w1 ++ [first; sent; EvNow; EvSave record; EvNow; retry] |}).
Proof.
  intros first seed sent r now expiry record retry r2
    Hh H401 Hst Hbody Hexp Hacc Hnow Hsum Hround Hvalid H200 Hanswer.
  rewrite (safe_get_second url params w w1 hdrs td n access
             Hh H401 Hst Hbody Hexp Hacc Hnow Hsum Hround Hvalid).
  fold first seed sent now expiry record r2 retry.
  rewrite H200, Hanswer. reflexivity.
Qed.

(** X20. When the first answer is a 401 and the identity endpoint rejects
    the configured refresh token, [safe_get] raises the refresh error and
    does not send the GET again. *)
Theorem safe_get_refresh_failure_stops (url : string)
    (params : option (list (string * json))) (w w1 : world) (hdrs : headers) :
  let first := EvGet url hdrs params in
  let seed := getenv (BQE_REFRESH_TOKEN_ENV E) in
  let sent := EvPost BQE_TOKEN_URL (refresh_payload E seed) in
  let r := requests_post E (trace w1 ++ [first]) BQE_TOKEN_URL (refresh_payload E seed) in
  get_headers E w = (Return hdrs, w1) ->
  status_code (requests_get E (trace w1) url hdrs params) = 401 ->
  status_code r <> 200 ->
  safe_get E url params w =
    (Raise (RuntimeError (String.append "Token refresh failed: " (text r))),
     {| token_file := token_file w1; trace := trace w1 ++ [first; sent] |}).
Proof.
  intros first seed sent r Hh H401 Hst.
  unfold safe_get. unfold bind at 1. rewrite Hh.
  unfold bind at 1. unfold get at 1. rewrite H401.
  change (401 =? 401) with true. cbv iota.
  unfold bind at 1. unfold bind at 1.
  cbn [log trace token_file]. fold first. fold seed.
  unfold refresh_access_token, bind, post, raise. cbn [trace log token_file].
  fold r. apply Z.eqb_neq in Hst. rewrite Hst. cbn [negb].
  rewrite <- app_assoc. reflexivity.
Qed.

End ListResults.

(** ** The per-client endpoints, beyond the page loop *)

Section PerClientResults.

Context {py : Builtins}.
Variable E : environment.

Lemma fetch_client_found (client_id : string) (w : world) (token : json)
    (cd : list (string * json)) :
  token_fresh E w token ->
  let r := requests_get E (trace w ++ [EvNow]) (client_url client_id) (bearer token) None in
  status_code r = 200 ->
  body r = Some (JDict cd) ->
  fetch_client E client_id w =
    (Return (JDict cd),
     {| token_file := token_file w;
        trace := trace w ++ [EvNow; EvGet (client_url client_id) (bearer token) None] |}).
Proof.
  intros Hfresh r Hst Hbody. unfold fetch_client. unfold bind at 1.
  rewrite (fresh_headers E w token Hfresh). unfold bind, get, lift, response_json.
  fold (client_url client_id). cbn [trace log token_file]. fold r.
  rewrite Hst, Hbody. cbn [Z.eqb Pos.eqb negb]. rewrite <- app_assoc. reflexivity.
Qed.

(** X21. When the client record is found but the first page request fails
    (any status other than 200), both per-client endpoints answer normally
    with an empty result: no resources, no time entries, counts of zero; the
    name shown is ["N/A"] when the record has none. *)
Theorem per_client_endpoints_empty_on_page_failure (fuel : nat) (client_id : string)
    (w : world) (token : json) (cd : list (string * json)) :
  token_fresh E w token ->
  let r := requests_get E (trace w ++ [EvNow]) (client_url client_id) (bearer token) None in
  let found := [EvNow; EvGet (client_url client_id) (bearer token) None] in
  status_code r = 200 ->
  body r = Some (JDict cd) ->
  ((forall tr h, status_code (requests_get E tr project_url h (client_query client_id 1)) <> 200) ->
   get_client_resources E (S fuel) client_id w =
     (Return {| rr_client := client_card cd; total_unique_resources := 0; rr_resources := [] |},
      {| token_file := token_file w;
         trace := trace w ++ found ++ page_round project_url client_id token 1 |})) /\
  ((forall tr h, status_code (requests_get E tr timeentry_url h (client_query client_id 1)) <> 200) ->
   get_client_timeentries E (S fuel) client_id w =
     (Return {| te_client := client_card cd; total_time_entries := 0;
                resources_with_hours := [] |},
      {| token_file := token_file w;
         trace := trace w ++ found ++ page_round timeentry_url client_id token 1 |})).
Proof.
  intros Hfresh r found Hst Hbody.
  pose proof (fetch_client_found client_id w token cd Hfresh Hst Hbody) as Hclient.
  set (w1 := {| token_file := token_file w;
                trace := trace w ++ [EvNow; EvGet (client_url client_id) (bearer token) None] |})
    in Hclient.
  assert (Hfresh1 : token_fresh E w1 token)
    by (apply (fresh_same_file E w); [reflexivity | exact Hfresh]).
  assert (Hloop : forall url,
            (forall tr h, status_code (requests_get E tr url h (client_query client_id 1)) <> 200) ->
            fetch_all E (S fuel) url client_id 1 [] w1 =
              (Return [],
               {| token_file := token_file w;
                  trace := trace w ++ found ++ page_round url client_id token 1 |})).
  { intros url Hbad.
    pose proof (fetch_all_run E url client_id token [] [] (S fuel) 1%nat [] w1 Hfresh1)
      as Hrun.
    change (Z.of_nat 1) with 1 in Hrun. rewrite Hrun.
    - subst w1. cbn [trace token_file List.concat app seq flat_map List.length].
      rewrite app_nil_r, <- app_assoc. reflexivity.
    - intros [| k] l Hk; discriminate.
    - intros tr h. left. split; [apply Hbad | reflexivity].
    - cbn. lia. }
  split; intros Hbad.
  - unfold get_client_resources. fold project_url. unfold bind at 1. rewrite Hclient.
    unfold bind at 1. rewrite (Hloop project_url Hbad).
    unfold bind, lift, ret. cbn [collect_resources client_summary].
    unfold client_card, dget_default. reflexivity.
  - unfold get_client_timeentries. fold timeentry_url. unfold bind at 1. rewrite Hclient.
    unfold bind at 1. rewrite (Hloop timeentry_url Hbad).
    unfold bind, lift, ret. cbn [group_entries client_summary].
    unfold client_card, dget_default. reflexivity.
Qed.

(** X22. In the page loop, a 200 page whose body is neither a list nor an
    object, or is an object without ["items"], counts as an empty page and
    ends the loop with what was gathered; an object whose ["items"] is a
    number other than zero makes the loop raise a [TypeError]. *)
Theorem fetch_all_unexpected_shapes (fuel : nat) (url client_id : string) (page : Z)
    (acc : list json) (w : world) (token : json) (data : json) :
  token_fresh E w token ->
  let asked_page := EvGet url (bearer token) (client_query client_id page) in
  let r := requests_get E (trace w ++ [EvNow]) url (bearer token) (client_query client_id page) in
  let after := {| token_file := token_file w; trace := trace w ++ [EvNow; asked_page] |} in
  status_code r = 200 ->
  body r = Some data ->
  (is_scalar data \/ (exists d, data = JDict d /\ assoc "items" d = None) ->
   fetch_all E (S fuel) url client_id page acc w = (Return acc, after)) /\
  ((exists d n, data = JDict d /\ assoc "items" d = Some (JInt n) /\ n <> 0) ->
   fetch_all E (S fuel) url client_id page acc w = (Raise TypeError, after)).
Proof.
  intros Hfresh asked_page r after Hst Hbody.
  assert (Hstep : fetch_all E (S fuel) url client_id page acc w =
            (let items := loop_items data in
             if negb (truthy items) then ret acc
             else
               elems <- lift (py_iter items) ;;
               n <- lift (py_len items) ;;
               if n <? 100 then ret (acc ++ elems)
               else fetch_all E fuel url client_id (page + 1) (acc ++ elems)) after).
  { cbn [fetch_all]. unfold bind at 1. rewrite (fresh_headers E w token Hfresh).
    unfold bind at 1. unfold get at 1. cbn [log trace token_file]. fold r.
    rewrite Hst. cbn [Z.eqb Pos.eqb negb]. unfold bind at 1, lift at 1, response_json.
    fold r. rewrite Hbody. subst after asked_page. rewrite <- app_assoc. reflexivity. }
  rewrite Hstep. split.
  - intros [Hscalar | (d & -> & Hitems)].
    + destruct data; try contradiction; reflexivity.
    + cbn zeta. unfold loop_items, dget_default. rewrite Hitems. reflexivity.
  - intros (d & n & -> & Hitems & Hn).
    cbn zeta. unfold loop_items, dget_default. rewrite Hitems. cbn [truthy].
    apply Z.eqb_neq in Hn. rewrite Hn. reflexivity.
Qed.

Lemma assign_role_returns (idf namef role : string) (p : list (string * json))
    (acc : list (pykey * resource)) :
  (exists out, assign_role idf namef role p acc = Return out) <->
  (truthy (dget idf p) && truthy (dget namef p) = true ->
   exists k, hash_key (dget idf p) = Return k).
Proof.
  unfold assign_role. destruct (truthy (dget idf p) && truthy (dget namef p)).
  - destruct (hash_key (dget idf p)) as [k | e |]; cbn [obind]; split.
    + intros _ _. now exists k.
    + intros _. eauto.
    + intros [out H]; discriminate.
    + intros H. destruct (H eq_refl) as [k Hk]. discriminate.
    + intros [out H]; discriminate.
    + intros H. destruct (H eq_refl) as [k Hk]. discriminate.
  - split; [intros _ H; discriminate | intros _; eauto].
Qed.

Lemma usable_project_roles (d : list (string * json)) :
  usable_project (JDict d) <->
  (truthy (dget "managerId" d) && truthy (dget "manager" d) = true ->
   exists k, hash_key (dget "managerId" d) = Return k) /\
  (truthy (dget "principalId" d) && truthy (dget "principal" d) = true ->
   exists k, hash_key (dget "principalId" d) = Return k).
Proof.
  unfold usable_project, assignments. split.
  - intros [_ Hu]. split; intros Hc.
    + apply (Hu _ {| r_name := dget "manager" d; r_role := "Project Manager" |}).
      rewrite Hc. now left.
    + apply (Hu _ {| r_name := dget "principal" d; r_role := "Principal" |}).
      rewrite Hc. apply in_or_app. right. now left.
  - intros [Hm Hp]. split; [now exists d |].
    intros id r Hin. apply in_app_or in Hin. destruct Hin as [Hin | Hin].
    + destruct (truthy (dget "managerId" d) && truthy (dget "manager" d));
        [| contradiction].
      destruct Hin as [[= <- <-] | []]. now apply Hm.
    + destruct (truthy (dget "principalId" d) && truthy (dget "principal" d));
        [| contradiction].
      destruct Hin as [[= <- <-] | []]. now apply Hp.
Qed.

(** X23. The role extraction goes through exactly when every project is an
    object whose assigned person ids are hashable (not lists or objects);
    otherwise the whole request fails. *)
Theorem collect_resources_returns_iff (projects : list json) :
  forall acc : list (pykey * resource),
    (exists out, collect_resources projects acc = Return out) <->
    Forall usable_project projects.
Proof.
  induction projects as [| p rest IH]; intros acc.
  - split; [constructor | intros _; now exists acc].
  - cbn [collect_resources].
    assert (Hnot : forall q, ~ is_object q ->
              ((exists out : list (pykey * resource), Raise AttributeError = Return out) <->
               Forall usable_project (q :: rest))).
    { intros q Hq. split; [intros [out H]; discriminate |].
      intros H. inversion H as [| ? ? [Hobj _] _]. contradiction. }
    destruct p as [| | | | | | d];
      try (apply Hnot; intros [d Hd]; discriminate).
    pose proof (assign_role_returns "managerId" "manager" "Project Manager" d acc) as Hm.
    pose proof (usable_project_roles d) as Hu.
    destruct (assign_role "managerId" "manager" "Project Manager" d acc) as [r1 | e |] eqn:H1;
      cbn [obind].
    2, 3: split;
      [ intros [out H]; discriminate
      | intros H; inversion H as [| ? ? Hd _]; subst;
        destruct (proj2 Hm (proj1 (proj1 Hu Hd))) as [out Hout]; discriminate ].
    pose proof (assign_role_returns "principalId" "principal" "Principal" d r1) as Hp.
    destruct (assign_role "principalId" "principal" "Principal" d r1) as [r2 | e |] eqn:H2;
      cbn [obind].
    2, 3: split;
      [ intros [out H]; discriminate
      | intros H; inversion H as [| ? ? Hd _]; subst;
        destruct (proj2 Hp (proj2 (proj1 Hu Hd))) as [out Hout]; discriminate ].
    rewrite (IH r2). split.
    + intros Hrest. constructor; [| exact Hrest].
      apply Hu. split; [apply Hm | apply Hp]; eauto.
    + intros H. now inversion H.
Qed.

Lemma dict_set_length {V : Type} (k : pykey) (v : V) (d : list (pykey * V)) :
  (List.length (dict_set k v d) <= S (List.length d))%nat.
Proof.
  induction d as [| [k0 v0] rest IH]; cbn [dict_set List.length]; [lia |].
  destruct (key_eqb k0 k); cbn [List.length]; lia.
Qed.

Lemma collect_resources_length (projects : list json) :
  forall acc out,
    collect_resources projects acc = Return out ->
    (List.length out <= List.length acc + 2 * List.length projects)%nat.
Proof.
  induction projects as [| p rest IH]; intros acc out Hrun.
  - injection Hrun as <-. lia.
  - cbn [collect_resources] in Hrun. destruct p as [| | | | | | d]; try discriminate.
    assert (Hstep : forall idf namef role a o,
              assign_role idf namef role d a = Return o ->
              (List.length o <= S (List.length a))%nat).
    { intros idf namef role a o. unfold assign_role.
      destruct (_ && _); [| intros [= <-]; lia].
      destruct (hash_key _); cbn [obind]; try discriminate.
      intros [= <-]. apply dict_set_length. }
    destruct (assign_role "managerId" _ _ d acc) as [r1 | |] eqn:H1;
      cbn [obind] in Hrun; try discriminate.
    destruct (assign_role "principalId" _ _ d r1) as [r2 | |] eqn:H2;
      cbn [obind] in Hrun; try discriminate.
    specialize (IH _ _ Hrun). apply Hstep in H1, H2. cbn [List.length]. lia.
Qed.

(** X24. [/clients/{id}/resources] never lists more than two resources per
    project fetched, and [total_unique_resources] is the length of the list
    it returns. *)
Theorem resources_at_most_two_per_project (fuel : nat) (client_id : string)
    (w w1 w2 w3 : world) (client_data : json) (projects : list json)
    (resp : resources_response) :
  fetch_client E client_id w = (Return client_data, w1) ->
  fetch_all E fuel project_url client_id 1 [] w1 = (Return projects, w2) ->
  get_client_resources E fuel client_id w = (Return resp, w3) ->
  total_unique_resources resp = Z.of_nat (List.length (rr_resources resp)) /\
  total_unique_resources resp <= 2 * Z.of_nat (List.length projects).
Proof.
  intros Hclient Hpages Hrun.
  unfold get_client_resources in Hrun. fold project_url in Hrun.
  unfold bind at 1 in Hrun. rewrite Hclient in Hrun.
  unfold bind at 1 in Hrun. rewrite Hpages in Hrun.
  unfold bind at 1, lift at 1 in Hrun.
  destruct (collect_resources projects []) as [resources | |] eqn:Hcollect; try discriminate.
  unfold bind, lift, ret in Hrun.
  destruct (client_summary client_data) as [client | |]; try discriminate.
  injection Hrun as <- _.
  cbn [total_unique_resources rr_resources]. rewrite length_map.
  pose proof (collect_resources_length projects [] resources Hcollect) as Hlen.
  cbn [List.length] in Hlen. split; lia.
Qed.

End PerClientResults.

(** ** Time entries, beyond the grouping *)

Section TimeEntriesMore.

Context {py : Builtins}.
Variable E : environment.

(** X25. In the answer of [/clients/{id}/timeentries] the rows' entry counts
    add up to [total_time_entries]: every fetched entry is filed in exactly
    one row. *)
Theorem entry_counts_add_up (fuel : nat) (client_id : string) (w w1 w2 w3 : world)
    (client_data : json) (entries : list json) (resp : timeentries_response) :
  fetch_client E client_id w = (Return client_data, w1) ->
  fetch_all E fuel timeentry_url client_id 1 [] w1 = (Return entries, w2) ->
  get_client_timeentries E fuel client_id w = (Return resp, w3) ->
  counted (resources_with_hours resp) = total_time_entries resp.
Proof.
  intros Hclient Hpages Hrun.
  unfold get_client_timeentries in Hrun. fold timeentry_url in Hrun.
  unfold bind at 1 in Hrun. rewrite Hclient in Hrun.
  unfold bind at 1 in Hrun. rewrite Hpages in Hrun.
  unfold bind at 1, lift at 1 in Hrun.
  destruct (group_entries entries []) as [groups | |] eqn:Hgroup; try discriminate.
  unfold bind, lift, ret in Hrun.
  destruct (client_summary client_data) as [client | |]; try discriminate.
  injection Hrun as <- _.
  cbn [total_time_entries resources_with_hours].
  rewrite counted_rows. destruct (group_entries_more entries [] groups Hgroup) as [-> _].
  reflexivity.
Qed.

(** X26. A group is named after the first fetched entry with its
    [resourceId]: that entry's [resource], or ["Unknown"] when it has none,
    whatever later entries of the same resource carry. *)
Theorem group_name_is_first_entry_name (entries : list json)
    (groups : list (pykey * resource_group)) :
  group_entries entries [] = Return groups ->
  forall k g, In (k, g) groups -> first_name k entries = Some (g_name g).
Proof.
  intros Hrun k g Hin.
  destruct (group_entries_inv entries [] groups Hrun) as (D & _ & _).
  destruct (group_entries_more entries [] groups Hrun) as [_ Hname].
  specialize (Hname k). cbn [dict_get option_map] in Hname.
  rewrite (dict_get_in k g groups (D ltac:(constructor)) Hin) in Hname.
  now symmetry.
Qed.

(** X27. The hours of an entry: every falsy [actualHours] (missing, null,
    0, empty string, empty list or object, false) counts 0.0; a non-empty
    string goes through [float()] and fails the request with a
    [ValueError] when it does not parse; a non-empty list or object fails it
    with a [TypeError]. *)
Theorem entry_hours_cases (d : list (string * json)) :
  (truthy (dget "actualHours" d) = false -> entry_hours d = Return 0%float) /\
  (forall s, dget "actualHours" d = JStr s -> s <> "" ->
     entry_hours d =
       match float_of_str s with Some f => Return f | None => Raise ValueError end) /\
  (forall x, dget "actualHours" d = x -> truthy x = true ->
     (exists l, x = JList l) \/ (exists o, x = JDict o) ->
     entry_hours d = Raise TypeError).
Proof.
  unfold entry_hours, py_or. repeat split.
  - intros ->. reflexivity.
  - intros s -> Hs. apply String.eqb_neq in Hs. cbn [truthy]. rewrite Hs. reflexivity.
  - intros x -> Hx [[l ->] | [o ->]]; rewrite Hx; reflexivity.
Qed.

(** X28. The grouping goes through exactly when every entry is an object
    whose hours convert and whose [resourceId] is hashable; otherwise the
    whole request fails. *)
Theorem group_entries_returns_iff (entries : list json) :
  forall acc : list (pykey * resource_group),
    (exists out, group_entries entries acc = Return out) <->
    Forall usable_entry entries.
Proof.
  induction entries as [| e rest IH]; intros acc.
  - split; [constructor | intros _; now exists acc].
  - cbn [group_entries].
    assert (Hbad : forall (o : outcome (list (pykey * resource_group))),
              (forall out, o <> Return out) -> ~ usable_entry e ->
              ((exists out, o = Return out) <-> Forall usable_entry (e :: rest))).
    { intros o Ho He. split; [intros [out H]; now destruct (Ho out) |].
      intros H. inversion H. contradiction. }
    destruct e as [| | | | | | d];
      try (apply Hbad; [intros ? ?; discriminate | intros (d & Hd & _); discriminate]).
    destruct (entry_hours d) as [hours | err |] eqn:Hh; cbn [obind].
    2, 3: apply Hbad; [intros ? ?; discriminate |];
      intros (d' & [= <-] & (h & Hh') & _); rewrite Hh in Hh'; discriminate.
    destruct (hash_key (dget "resourceId" d)) as [k | err |] eqn:Hk; cbn [obind].
    2, 3: apply Hbad; [intros ? ?; discriminate |];
      intros (d' & [= <-] & _ & (k' & Hk')); rewrite Hk in Hk'; discriminate.
    rewrite IH. split.
    + intros Hrest. constructor; [| exact Hrest]. exists d. eauto.
    + intros H. now inversion H.
Qed.

End TimeEntriesMore.

(** ** The further results on runs *)

(** X8, on a run: the identity server rejects the refresh token. *)
Lemma refresh_failure_keeps_token_file_witness :
  let run := refresh_access_token (py := python_sample) rejecting_identity (JStr "seed")
               (expired_world (JStr "seed")) in
  posts (trace (snd run)) = 1%nat /\
  asked (trace (snd run)) = [] /\
  ((forall token, fst run <> Return token) ->
   token_file (snd run) = token_file (expired_world (JStr "seed")) /\
   saves (trace (snd run)) = 0%nat) /\
  (forall token, fst run = Return token ->
   saves (trace (snd run)) = 1%nat /\
   exists record, token_file (snd run) = Stored record /\
                  subscript "access_token" record = Return token).
Proof.
  apply (refresh_failure_keeps_token_file (py := python_sample) rejecting_identity
           (JStr "seed") (expired_world (JStr "seed"))).
  reflexivity.
Defined.

(** X9, on a run: an expired record and a granting identity server. *)
Lemma get_access_token_effects_witness :
  let run := get_access_token (py := python_sample) (sample_env unauthorized)
               (expired_world (JStr "kept")) in
  (posts (trace (snd run)) <= 1)%nat /\
  asked (trace (snd run)) = [] /\
  ((forall token, fst run <> Return token) ->
   token_file (snd run) = token_file (expired_world (JStr "kept"))) /\
  (posts (trace (snd run)) = 0%nat ->
   token_file (snd run) = token_file (expired_world (JStr "kept"))).
Proof.
  apply (get_access_token_effects (py := python_sample) (sample_env unauthorized)
           (expired_world (JStr "kept"))).
  reflexivity.
Defined.

(** X10, on a run: every token is rejected, so two GETs are sent. *)
Lemma safe_get_effects_witness :
  let run := safe_get (py := python_sample) (sample_env unauthorized) project_url
               (query 1 100) valid_world in
  exists n,
    (n <= 2)%nat /\
    asked (trace (snd run)) = [] ++ repeat (project_url, query 1 100) n /\
    (posts (trace (snd run)) <= 0 + 3)%nat.
Proof.
  apply (safe_get_effects (py := python_sample) (sample_env unauthorized) project_url
           (query 1 100) valid_world _ (fst (safe_get (py := python_sample)
              (sample_env unauthorized) project_url (query 1 100) valid_world))).
  reflexivity.
Defined.

(** X11, on a run: two pages are asked for, 1 then 2. *)
Lemma fetch_all_asks_consecutive_pages_witness :
  let run := fetch_all (py := python_sample) (sample_env two_pages) 5 project_url "42" 1 []
               valid_world in
  exists m,
    (m <= 5)%nat /\
    asked (trace (snd run)) =
      [] ++ map (fun i => (project_url, client_query "42" (1 + Z.of_nat i))) (seq 0 m).
Proof.
  apply (fetch_all_asks_consecutive_pages (py := python_sample) (sample_env two_pages)
           project_url "42" 5 1 [] valid_world _
           (fst (fetch_all (py := python_sample) (sample_env two_pages) 5 project_url "42" 1 []
                   valid_world))).
  reflexivity.
Defined.

(** X12, on a run: the record valid until 00:59 is read back at 00:00. *)
Lemma saved_record_round_trip_witness :
  get_access_token (py := python_sample) (sample_env unauthorized) valid_world =
    (Return (JStr "cached"), {| token_file := token_file valid_world; trace := [EvNow] |}).
Proof.
  apply (saved_record_round_trip (py := python_sample) (sample_env unauthorized) valid_world
           (JStr "cached") (JStr "kept") 1893459540000000); reflexivity.
Defined.

(** X13, on a run: a sixty-second token is saved as expiring at once and the
    next call sends the rotated refresh token. *)
Lemma short_lifetime_is_refreshed_again_witness :
  bind (refresh_access_token (py := python_at_midnight) short_grant_identity (JStr "seed"))
       (fun _ => get_access_token (py := python_at_midnight) short_grant_identity)
       (expired_world (JStr "seed")) =
    refresh_access_token (py := python_at_midnight) short_grant_identity (JStr "rotated")
      {| token_file :=
           token_file (stored (JStr "brief") (JStr "rotated") "2030-01-01T00:00:00+00:00");
         trace :=
           [EvPost BQE_TOKEN_URL (refresh_payload short_grant_identity (JStr "seed")); EvNow;
            EvSave (JDict [("access_token", JStr "brief"); ("refresh_token", JStr "rotated");
                           ("expires_at", JStr "2030-01-01T00:00:00+00:00")]);
            EvNow] |}.
Proof.
  apply (short_lifetime_is_refreshed_again (py := python_at_midnight) short_grant_identity
           (expired_world (JStr "seed")) (JStr "seed")
           [("access_token", JStr "brief"); ("expires_in", JInt 60);
            ("refresh_token", JStr "rotated")] 60 (JStr "brief"));
    try reflexivity; vm_compute; try split; discriminate.
Defined.

(** X14, on a run: the token file holds the number 5. *)
Lemma scalar_token_file_raises_type_error_witness :
  get_access_token (py := python_sample) (sample_env unauthorized)
    {| token_file := Stored (JInt 5); trace := [] |} =
    (Raise TypeError, {| token_file := Stored (JInt 5); trace := [] |}).
Proof.
  apply (scalar_token_file_raises_type_error (py := python_sample) (sample_env unauthorized)
           {| token_file := Stored (JInt 5); trace := [] |} (JInt 5));
    [reflexivity | reflexivity |].
  right. left. now exists 5.
Defined.

(** X15, on a run: a record that only holds a refresh token. *)
Lemma unreadable_expiry_refreshes_witness :
  get_access_token (py := python_sample) (sample_env unauthorized)
    {| token_file := Stored (JDict [("refresh_token", JStr "kept")]); trace := [] |} =
    refresh_access_token (py := python_sample) (sample_env unauthorized) (JStr "kept")
      {| token_file := Stored (JDict [("refresh_token", JStr "kept")]); trace := [] |}.
Proof.
  apply (unreadable_expiry_refreshes (py := python_sample) (sample_env unauthorized)
           {| token_file := Stored (JDict [("refresh_token", JStr "kept")]); trace := [] |}
           [("refresh_token", JStr "kept")]).
  - reflexivity.
  - discriminate.
  - left. reflexivity.
Defined.

(** X16, on a run: the upstream answers 500 to [/clients]. *)
Lemma list_endpoints_surface_upstream_status_witness :
  get_clients (py := python_sample) (sample_env broken) 1 valid_world =
    (Raise (HTTPException 500 "BQE Error: upstream down"),
     {| token_file := token_file valid_world;
        trace := [EvNow; EvGet clients_url (bearer (JStr "cached")) (query 1 50)] |}).
Proof.
  refine (proj1 (list_endpoints_surface_upstream_status (py := python_sample)
                   (sample_env broken) 1 None valid_world
                   {| token_file := token_file valid_world; trace := [EvNow] |}
                   (bearer (JStr "cached")) eq_refl)
            (answer 500 "upstream down" None) eq_refl _ _);
    vm_compute; discriminate.
Defined.

(** X17, on a run: a bare list of two items. *)
Lemma get_clients_page_witness :
  get_clients (py := python_sample) (sample_env small_client) 1 valid_world =
    (Return {| cl_page := 1; cl_count := 2; cl_total := JInt 2;
               cl_clients := JList small_entries |},
     {| token_file := token_file valid_world;
        trace := [EvNow; EvGet clients_url (bearer (JStr "cached")) (query 1 50)] |}).
Proof.
  apply (get_clients_page (py := python_sample) (sample_env small_client) 1 valid_world
           {| token_file := token_file valid_world; trace := [EvNow] |}
           (bearer (JStr "cached")) (JList small_entries) small_entries);
    reflexivity.
Defined.

(** X18, on a run: the page reports a total of 57, and two of its three
    projects pass the filter. *)
Lemma get_projects_count_and_total_witness :
  exists resp shown,
    get_projects (py := python_sample) (sample_env small_client) 1 (Some "active") valid_world =
      (Return resp,
       {| token_file := token_file valid_world;
          trace := [EvNow; EvGet project_url (bearer (JStr "cached")) (query 1 100)] |}) /\
    pr_projects resp = JList shown /\
    pr_count resp = Z.of_nat (List.length shown) /\
    incl shown small_projects /\
    (List.length shown <= List.length small_projects)%nat /\
    pr_total_in_bqe resp = JInt 57.
Proof.
  apply (get_projects_count_and_total (py := python_sample) (sample_env small_client) 1
           (Some "active") valid_world _
           (JDict [("items", JList small_projects); ("total", JInt 57)]) small_projects);
    [reflexivity | reflexivity |].
  repeat constructor; eexists; reflexivity.
Defined.

(** X19, on a run: the cached token is rejected, the refreshed one works. *)
Lemma safe_get_retry_succeeds_witness :
  safe_get (py := python_sample) renewing project_url (query 1 100) valid_world =
    (Return (JList [JInt 1]),
     {| token_file := token_file (stored (JStr "fresh") (JStr "seed") "2030-01-01T00:59:00+00:00");
        trace :=
          [EvNow;
           EvGet project_url (bearer (JStr "cached")) (query 1 100);
           EvPost BQE_TOKEN_URL (refresh_payload renewing (JStr "seed"));
           EvNow;
           EvSave (JDict [("access_token", JStr "fresh"); ("refresh_token", JStr "seed");
                          ("expires_at", JStr "2030-01-01T00:59:00+00:00")]);
           EvNow;
           EvGet project_url (bearer (JStr "fresh")) (query 1 100)] |}).
Proof.
  apply (safe_get_retry_succeeds (py := python_sample) renewing
           project_url (query 1 100) valid_world
           {| token_file := token_file valid_world; trace := [EvNow] |}
           (bearer (JStr "cached"))
           [("access_token", JStr "fresh"); ("expires_in", JInt 3600)] 3600 (JStr "fresh")
           (JList [JInt 1]));
    try reflexivity; vm_compute; split; discriminate.
Defined.

(** X20, on a run: the token is rejected and so is the refresh token. *)
Lemma safe_get_refresh_failure_stops_witness :
  safe_get (py := python_sample) rejecting_identity project_url (query 1 100) valid_world =
    (Raise (RuntimeError "Token refresh failed: invalid_grant"),
     {| token_file := token_file valid_world;
        trace :=
          [EvNow;
           EvGet project_url (bearer (JStr "cached")) (query 1 100);
           EvPost BQE_TOKEN_URL (refresh_payload rejecting_identity (JStr "seed"))] |}).
Proof.
  apply (safe_get_refresh_failure_stops (py := python_sample) rejecting_identity
           project_url (query 1 100) valid_world
           {| token_file := token_file valid_world; trace := [EvNow] |}
           (bearer (JStr "cached")));
    try reflexivity.
  vm_compute. discriminate.
Defined.

(** X21, on a run: the client exists and the project pages are unavailable. *)
Lemma per_client_endpoints_empty_on_page_failure_witness :
  get_client_resources (py := python_sample) (sample_env client_only) 1 "42" valid_world =
    (Return {| rr_client := acme; total_unique_resources := 0; rr_resources := [] |},
     after_one_page project_url).
Proof.
  refine (proj1 (per_client_endpoints_empty_on_page_failure (py := python_sample)
                   (sample_env client_only) 0 "42" valid_world (JStr "cached")
                   [("id", JStr "42"); ("company", JStr "Acme")] _ eq_refl eq_refl) _).
  - exists [("access_token", JStr "cached"); ("refresh_token", JStr "kept");
            ("expires_at", JStr "2030-01-01T00:59:00+00:00")],
      "2030-01-01T00:59:00+00:00", 1893459540000000.
    repeat split; reflexivity.
  - intros tr h. vm_compute. discriminate.
Defined.

(** X22, on a run: the page is a JSON string. *)
Lemma fetch_all_unexpected_shapes_witness :
  fetch_all (py := python_sample) (sample_env text_pages) 1 project_url "42" 1 [JInt 9]
    valid_world =
    (Return [JInt 9],
     {| token_file := token_file valid_world;
        trace := [EvNow; EvGet project_url (bearer (JStr "cached")) (client_query "42" 1)] |}).
Proof.
  refine (proj1 (fetch_all_unexpected_shapes (py := python_sample) (sample_env text_pages)
                   0 project_url "42" 1 [JInt 9] valid_world (JStr "cached") (JStr "oops")
                   _ eq_refl eq_refl) _).
  - exists [("access_token", JStr "cached"); ("refresh_token", JStr "kept");
            ("expires_at", JStr "2030-01-01T00:59:00+00:00")],
      "2030-01-01T00:59:00+00:00", 1893459540000000.
    repeat split; reflexivity.
  - left. exact I.
Defined.

(** X24, on a run: three projects, two resources. *)
Lemma resources_at_most_two_per_project_witness :
  total_unique_resources small_resources = Z.of_nat (List.length (rr_resources small_resources)) /\
  total_unique_resources small_resources <= 2 * Z.of_nat (List.length small_projects).
Proof.
  apply (resources_at_most_two_per_project (py := python_sample) (sample_env small_client) 5 "42"
           valid_world {| token_file := token_file valid_world;
                          trace := [EvNow; EvGet (client_url "42") (bearer (JStr "cached")) None] |}
           (after_one_page project_url) (after_one_page project_url)
           (JDict [("id", JStr "42"); ("company", JStr "Acme")])
           small_projects small_resources);
    reflexivity.
Defined.

(** X25, on a run: one row of two entries, two entries in all. *)
Lemma entry_counts_add_up_witness :
  counted (resources_with_hours small_timeentries) = total_time_entries small_timeentries.
Proof.
  apply (entry_counts_add_up (py := python_sample) (sample_env small_client) 5 "42"
           valid_world {| token_file := token_file valid_world;
                          trace := [EvNow; EvGet (client_url "42") (bearer (JStr "cached")) None] |}
           (after_one_page timeentry_url) (after_one_page timeentry_url)
           (JDict [("id", JStr "42"); ("company", JStr "Acme")])
           small_entries small_timeentries);
    reflexivity.
Defined.

(** X26, on a run: the group of r1 is named after its first entry. *)
Lemma group_name_is_first_entry_name_witness :
  first_name (KStr "r1") small_entries = Some (g_name small_group).
Proof.
  apply (group_name_is_first_entry_name (py := python_sample) small_entries
           [(KStr "r1", small_group)]).
  - reflexivity.
  - now left.
Defined.
